(** * magalix-agent: secret masking, decision executor guard, kubelet scraper

    A shallow embedding of the parts of [kuber/kube.go] and
    [metrics/kubelet.go] that the specification talks about, with the
    properties of the specification stated and settled against them.

    Conventions.
    - Go's [int64], [int32], [int] and [time.Duration] values are [Z]; the
      64-bit wrap-around of [+], [-] and [*] is written out ([wrap64]).
    - An error is a value of type [error]; Go's [(x, err)] results are
      [result], a nil pointer is [None].
    - Go maps are stdpp's [gmap]; Go slices that are only read, or written
      only right after [make], are lists. A [range] over a Go map visits
      the entries in an unspecified order; here it visits them in the
      order of [map_to_list], and no statement depends on that order.
    - Code that writes through a pointer is modelled on the pointee: the
      function takes the value stored at the pointer and returns the value
      stored there afterwards; the caller decides where that value lives
      (in a local copy, or in an object shared with the returned result). *)

From Stdlib Require Import ZArith Lia Ascii String List.
From Stdlib Require PrimFloat SpecFloat FloatOps.
From stdpp Require Import base option list gmap strings pretty.

Local Open Scope Z_scope.
Local Open Scope string_scope.
Local Open Scope list_scope.
Local Set Warnings "-register-all".

(** ** Errors and results shared by both packages *)

(** [karma.Format(reason, msg)] wraps an optional cause in a message;
    [fmt.Errorf] and the errors of the platform client are leaves. *)
Inductive error : Type :=
| karma_Format (reason : option error) (msg : string)
| fmt_Errorf (msg : string)
| external_error (msg : string).

Inductive result (A : Type) : Type :=
| Ok (a : A)
| Err (e : error).
Arguments Ok {A} a.
Arguments Err {A} e.

(** A run of a Go function either returns or panics (nil dereference). *)
Inductive outcome (A : Type) : Type :=
| Returns (a : A)
| Panics.
Arguments Returns {A} a.
Arguments Panics {A}.

(** ** 64-bit integers *)

Definition int64_min : Z := - 2 ^ 63.
Definition int64_max : Z := 2 ^ 63 - 1.
Definition in_int64 (z : Z) : Prop := int64_min <= z <= int64_max.

(** Two's complement reduction of a mathematical integer to [int64]. *)
Definition wrap64 (z : Z) : Z := (z + 2 ^ 63) mod 2 ^ 64 - 2 ^ 63.

Definition add64 (a b : Z) : Z := wrap64 (a + b).
Definition sub64 (a b : Z) : Z := wrap64 (a - b).
Definition mul64 (a b : Z) : Z := wrap64 (a * b).
(** Go's [/] on integers truncates toward zero. *)
Definition quot64 (a b : Z) : Z := wrap64 (Z.quot a b).

(** ** Package kuber *)

Module kuber.

Definition milliCore : Z := 1000.
Definition maskedValue : string := "**MASKED**".

(** *** The platform's pod specification (k8s.io/api/core/v1), the fields
    the agent reads or rewrites. *)

Record EnvVar : Type := mkEnvVar {
  EnvVar_Name : string;
  EnvVar_Value : string
}.

Record Container : Type := mkContainer {
  Container_Name : string;
  Container_Image : string;
  Container_Command : list string;
  Container_Args : list string;
  Container_Env : list EnvVar
}.

Record PodSpec : Type := mkPodSpec {
  InitContainers : list Container;
  Containers : list Container
}.

(** *** Masking ([maskPodSpec] and its helpers) *)

(** [maskEnvVars]: a fresh slice of the same length; each variable is
    copied and its value overwritten when it is not the empty string. *)
Definition maskEnvVar (envVar : EnvVar) : EnvVar :=
  if decide (EnvVar_Value envVar = "") then envVar
  else mkEnvVar (EnvVar_Name envVar) maskedValue.

Definition maskEnvVars (env : list EnvVar) : list EnvVar :=
  map maskEnvVar env.

(** [maskArgs]: a fresh slice of the same length filled with the token. *)
Definition maskArgs (args : list string) : list string :=
  map (fun _ => maskedValue) args.

(** [maskContainers]: each container is copied, its [Env] and [Args] are
    replaced by the masked slices, and the copy is appended to a new
    slice. The argument's backing array is never written. *)
Definition maskContainer (container : Container) : Container :=
  mkContainer (Container_Name container) (Container_Image container)
              (Container_Command container)
              (maskArgs (Container_Args container))
              (maskEnvVars (Container_Env container)).

Definition maskContainers (containers : list Container) : list Container :=
  fold_left (fun masked container => masked ++ [maskContainer container])
            containers [].

(** [maskPodSpec(podSpec *PodSpec)]: the value at [podSpec] afterwards. *)
Definition maskPodSpec (podSpec : PodSpec) : PodSpec :=
  let podSpec1 := mkPodSpec (InitContainers podSpec)
                            (maskContainers (Containers podSpec)) in
  mkPodSpec (maskContainers (InitContainers podSpec1)) (Containers podSpec1).

(** *** Workload objects returned by the platform client

    In k8s.io/api the pod template of a ReplicationController is a pointer
    ([Template *PodTemplateSpec]); the template of a Deployment,
    StatefulSet, DaemonSet, ReplicaSet (apps/v1beta2, apps/v1) and of a
    CronJob ([Spec.JobTemplate.Spec.Template], batch/v1beta1) is a struct
    field held by value. Pointed-to templates live in a heap. *)

Definition ptr : Type := positive.
Definition Heap : Type := gmap ptr PodSpec.

Record ReplicationController : Type := mkReplicationController {
  rc_Namespace : string;
  rc_Name : string;
  rc_Spec_Template : option ptr
}.

(** Deployment, StatefulSet, DaemonSet, ReplicaSet of apps/v1beta2. *)
Record Workload : Type := mkWorkload {
  w_Namespace : string;
  w_Name : string;
  w_Spec_Template_Spec : PodSpec
}.

Record CronJob : Type := mkCronJob {
  cj_Namespace : string;
  cj_Name : string;
  cj_Spec_JobTemplate_Spec_Template_Spec : PodSpec
}.

Record RollingUpdateStatefulSetStrategy : Type := mkRollingUpdate {
  Partition : option Z
}.

Record StatefulSetUpdateStrategy : Type := mkUpdateStrategy {
  UpdateStrategy_Type : string;
  RollingUpdate : option RollingUpdateStatefulSetStrategy
}.

(** apps/v1 StatefulSet, as fetched by [GetStatefulSet]. *)
Record StatefulSet : Type := mkStatefulSet {
  sts_Namespace : string;
  sts_Name : string;
  sts_Spec_Replicas : option Z;
  sts_Spec_UpdateStrategy : StatefulSetUpdateStrategy;
  sts_Spec_Template_Spec : PodSpec
}.

Definition RollingUpdateStatefulSetStrategyType : string := "RollingUpdate".

(** *** Decisions ([SetResources]) *)

Record RequestLimit : Type := mkRequestLimit {
  CPU : option Z;
  Memory : option Z
}.

Record ContainerResourcesRequirements : Type := mkCRR {
  crr_Name : string;
  Requests : RequestLimit;
  Limits : RequestLimit
}.

Record TotalResources : Type := mkTotalResources {
  Replicas : option Z;
  tr_Containers : list ContainerResourcesRequirements
}.

(** A leaf of the patch body: a string, or the float
    [float64(millis) / milliCore], kept as its numerator. *)
Inductive leaf : Type :=
| leaf_string (s : string)
| leaf_cores (millis : Z).

Record containerSpec : Type := mkContainerSpec {
  spec_name : string;
  spec_resources : gmap string (gmap string leaf)
}.

(** [body]: ["kind"], and under ["spec"] the optional
    ["template"]["spec"]["containers"] and ["replicas"]. *)
Record patchBody : Type := mkPatchBody {
  body_kind : string;
  body_spec_template_spec_containers : option (list containerSpec);
  body_spec_replicas : option Z
}.

Record PatchRequest : Type := mkPatchRequest {
  req_Resource : string;
  req_Namespace : string;
  req_Name : string;
  req_Body : patchBody
}.

(** The answers of the platform's API server to the calls of one run.
    A list answer is [(list pointer, err)]; [platform_heap] holds the
    templates the answers point to. *)
Record Platform : Type := mkPlatform {
  core_ReplicationControllers_List : result (option (list ReplicationController));
  apps_Deployments_List : result (option (list Workload));
  apps_StatefulSets_List : result (option (list Workload));
  apps_DaemonSets_List : result (option (list Workload));
  apps_ReplicaSets_List : result (option (list Workload));
  batch_CronJobs_List : result (option (list CronJob));
  AppsV1_StatefulSets_Get : string -> string -> result (option StatefulSet);
  platform_heap : Heap;
  (** the error, if any, the API server answers a patch request with *)
  Patch_Do : PatchRequest -> option error
}.

(** [for _, item := range items { body }]. Go assigns a copy of each
    element to the iteration variable; [body] gets that copy and the heap
    and yields the variable and the heap as it leaves them. The variable
    is gone when the iteration ends, the array [items] is only read. *)
Fixpoint range_copy {A : Type} (body : A -> Heap -> outcome (A * Heap))
         (items : list A) (h : Heap) : outcome Heap :=
  match items with
  | [] => Returns h
  | item :: rest =>
      match body item h with
      | Returns (_, h') => range_copy body rest h'
      | Panics => Panics
      end
  end.

(** [maskPodSpec(&item.Spec.Template.Spec)] where [Template] is a pointer:
    the write lands in the heap object, which the list still points to. *)
Definition mask_rc_item (item : ReplicationController) (h : Heap)
  : outcome (ReplicationController * Heap) :=
  match rc_Spec_Template item with
  | None => Panics
  | Some p =>
      match h !! p with
      | None => Panics
      | Some podSpec => Returns (item, <[p := maskPodSpec podSpec]> h)
      end
  end.

(** The same call where [Template] is held by value: the write lands in
    the iteration variable. *)
Definition mask_workload_item (item : Workload) (h : Heap)
  : outcome (Workload * Heap) :=
  Returns (mkWorkload (w_Namespace item) (w_Name item)
                      (maskPodSpec (w_Spec_Template_Spec item)), h).

Definition mask_cronjob_item (item : CronJob) (h : Heap)
  : outcome (CronJob * Heap) :=
  Returns (mkCronJob (cj_Namespace item) (cj_Name item)
             (maskPodSpec (cj_Spec_JobTemplate_Spec_Template_Spec item)), h).

(** The shape shared by the six list operations: call the API, wrap the
    error, mask every item in a [range] loop, return the list pointer. *)
Definition list_and_mask {A : Type} (answer : result (option (list A)))
    (errmsg : string) (body : A -> Heap -> outcome (A * Heap)) (h : Heap)
  : outcome (result (option (list A)) * Heap) :=
  match answer with
  | Err err => Returns (Err (karma_Format (Some err) errmsg), h)
  | Ok None => Returns (Ok None, h)
  | Ok (Some items) =>
      match range_copy body items h with
      | Returns h' => Returns (Ok (Some items), h')
      | Panics => Panics
      end
  end.

Definition GetReplicationControllers (kube : Platform) :=
  list_and_mask (core_ReplicationControllers_List kube)
    "unable to retrieve replication controllers from all namespaces"
    mask_rc_item (platform_heap kube).

Definition GetDeployments (kube : Platform) :=
  list_and_mask (apps_Deployments_List kube)
    "unable to retrieve deployments from all namespaces"
    mask_workload_item (platform_heap kube).

Definition GetStatefulSets (kube : Platform) :=
  list_and_mask (apps_StatefulSets_List kube)
    "unable to retrieve stateful sets from all namespaces"
    mask_workload_item (platform_heap kube).

Definition GetDaemonSets (kube : Platform) :=
  list_and_mask (apps_DaemonSets_List kube)
    "unable to retrieve daemon sets from all namespaces"
    mask_workload_item (platform_heap kube).

Definition GetReplicaSets (kube : Platform) :=
  list_and_mask (apps_ReplicaSets_List kube)
    "unable to retrieve replica sets from all namespaces"
    mask_workload_item (platform_heap kube).

Definition GetCronJobs (kube : Platform) :=
  list_and_mask (batch_CronJobs_List kube)
    "unable to retrieve cron jobs from all namespaces"
    mask_cronjob_item (platform_heap kube).

(** [GetStatefulSet] holds a pointer to the object it returns, so the
    masked template is the template of the returned object. *)
Definition GetStatefulSet (kube : Platform) (namespace name : string)
  : result (option StatefulSet) :=
  match AppsV1_StatefulSets_Get kube namespace name with
  | Err err =>
      Err (karma_Format (Some err)
             ("unable to retrieve statefulset " +:+ namespace +:+ "/" +:+ name))
  | Ok None => Ok None
  | Ok (Some statefulSet) =>
      Ok (Some (mkStatefulSet (sts_Namespace statefulSet) (sts_Name statefulSet)
                  (sts_Spec_Replicas statefulSet)
                  (sts_Spec_UpdateStrategy statefulSet)
                  (maskPodSpec (sts_Spec_Template_Spec statefulSet))))
  end.

(** [strings.ToLower] on ASCII text (kinds are ASCII identifiers). *)
Definition lower_ascii (c : ascii) : ascii :=
  let n := nat_of_ascii c in
  if (65 <=? n)%nat && (n <=? 90)%nat then ascii_of_nat (n + 32) else c.

Fixpoint strings_ToLower (s : string) : string :=
  match s with
  | EmptyString => EmptyString
  | String c rest => String (lower_ascii c) (strings_ToLower rest)
  end.

(** [resources[outer][inner] = v], creating [resources[outer]] if absent. *)
Definition set_resource (outer inner : string) (v : leaf)
    (resources : gmap string (gmap string leaf))
  : gmap string (gmap string leaf) :=
  let resources :=
    match resources !! outer with
    | Some _ => resources
    | None => <[outer := ∅]> resources
    end in
  <[outer := <[inner := v]> (default ∅ (resources !! outer))]> resources.

Definition set_if_present (outer inner : string) (field : option Z)
    (mk : Z -> leaf) (resources : gmap string (gmap string leaf))
  : gmap string (gmap string leaf) :=
  match field with
  | Some x => set_resource outer inner (mk x) resources
  | None => resources
  end.

Definition mebibytes (n : Z) : leaf := leaf_string (pretty n +:+ "Mi").

(** The [resources] map built for one container of the decision. *)
Definition container_resources (container : ContainerResourcesRequirements)
  : gmap string (gmap string leaf) :=
  let resources := ∅ in
  let resources :=
    set_if_present "limits" "memory" (Memory (Limits container)) mebibytes resources in
  let resources :=
    set_if_present "limits" "cpu" (CPU (Limits container)) leaf_cores resources in
  let resources :=
    set_if_present "requests" "memory" (Memory (Requests container)) mebibytes resources in
  let resources :=
    set_if_present "requests" "cpu" (CPU (Requests container)) leaf_cores resources in
  resources.

(** The loop over [totalResources.Containers]; it returns early on a
    container without any resource. *)
Fixpoint build_containerSpecs (containers : list ContainerResourcesRequirements)
  : result (list containerSpec) :=
  match containers with
  | [] => Ok []
  | container :: rest =>
      let resources := container_resources container in
      if decide (size resources = 0%nat) then
        Err (fmt_Errorf ("invalid resources for container: " +:+ crr_Name container))
      else
        match build_containerSpecs rest with
        | Ok specs => Ok (mkContainerSpec (crr_Name container) resources :: specs)
        | Err e => Err e
        end
  end.

(** The StatefulSet guard: [Some reason] when the decision is skipped. *)
Definition statefulSet_guard (statefulSet : StatefulSet) : option error :=
  match sts_Spec_Replicas statefulSet with
  | Some replicas =>
      if decide (replicas > 1) then
        (* [%v] of the [*int32] prints its address, left out here *)
        let msg := "sts replicas > 1" in
        let updateStrategy := UpdateStrategy_Type (sts_Spec_UpdateStrategy statefulSet) in
        if decide (updateStrategy = RollingUpdateStatefulSetStrategyType) then
          match RollingUpdate (sts_Spec_UpdateStrategy statefulSet) with
          | Some rollingUpdate =>
              match Partition rollingUpdate with
              | Some partition =>
                  if decide (partition <> 0) then
                    Some (karma_Format None
                      (msg +:+ " and Spec.UpdateStrategy.RollingUpdate.Partition not equal 0"))
                  else None
              | None => None
              end
          | None => None
          end
        else
          Some (karma_Format None
                  (msg +:+ " and Spec.UpdateStrategy not equal 'RollingUpdate'"))
      else None
  | None => None
  end.

(** [SetResources]: the pair [(skipped, err)] and the patch requests sent
    to the platform, in order. *)
Definition SetResources (kube : Platform) (kind name namespace : string)
    (totalResources : TotalResources)
  : outcome ((bool * option error) * list PatchRequest) :=
  if decide (length (tr_Containers totalResources) = 0%nat
             /\ Replicas totalResources = None) then
    Returns ((false, Some (fmt_Errorf "invalid resources passed, nothing to change")), [])
  else
    let guard : outcome (option (bool * option error)) :=
      if decide (strings_ToLower kind = "statefulset") then
        match GetStatefulSet kube namespace name with
        | Err err =>
            Returns (Some (false, Some (karma_Format (Some err) "unable to get sts definition")))
        | Ok None => Panics
        | Ok (Some statefulSet) =>
            match statefulSet_guard statefulSet with
            | Some reason => Returns (Some (true, Some reason))
            | None => Returns None
            end
        end
      else Returns None in
    match guard with
    | Panics => Panics
    | Returns (Some early) => Returns (early, [])
    | Returns None =>
        match build_containerSpecs (tr_Containers totalResources) with
        | Err e => Returns ((false, Some e), [])
        | Ok containerSpecs =>
            let body :=
              mkPatchBody kind
                (if decide (0 < length containerSpecs)%nat
                 then Some containerSpecs else None)
                (match Replicas totalResources with
                 | Some replicas =>
                     if decide (replicas > 0) then Some replicas else None
                 | None => None
                 end) in
            let req := mkPatchRequest (kind +:+ "s") namespace name body in
            Returns ((false, Patch_Do kube req), [req])
        end
    end.

(** The pod specs a caller finds in a returned list. *)
Definition rc_podSpecs (items : list ReplicationController) (h : Heap)
  : list (option PodSpec) :=
  map (fun item => p ← rc_Spec_Template item; h !! p) items.

Definition workload_podSpecs (items : list Workload) : list PodSpec :=
  map w_Spec_Template_Spec items.

Definition cronjob_podSpecs (items : list CronJob) : list PodSpec :=
  map cj_Spec_JobTemplate_Spec_Template_Spec items.

(** *** What "masked" means for a returned pod spec *)

(** Every value that was present in the original is the token now. *)
Definition envMasked (orig ret : EnvVar) : Prop :=
  EnvVar_Value orig <> "" -> EnvVar_Value ret = maskedValue.

Definition containerMasked (orig ret : Container) : Prop :=
  Forall2 envMasked (Container_Env orig) (Container_Env ret) /\
  Forall2 (fun _ arg => arg = maskedValue)
          (Container_Args orig) (Container_Args ret).

Definition podSpecMasked (orig ret : PodSpec) : Prop :=
  Forall2 containerMasked (Containers orig) (Containers ret) /\
  Forall2 containerMasked (InitContainers orig) (InitContainers ret).

End kuber.

(** ** Package metrics *)

Module metrics.

(** *** Time, identifiers, floats *)

(** A [time.Time] is the instant it denotes, in nanoseconds since the Unix
    epoch (locations and monotonic readings play no role here). *)
Definition Time : Type := Z.

(** [time.Time{}]: January 1 of year 1, 00:00 UTC. *)
Definition time_zero : Time := - 62135596800 * 10 ^ 9.

Definition Time_Equal (t u : Time) : bool := bool_decide (t = u).
Definition Time_After (t u : Time) : bool := bool_decide (u < t).
Definition Time_UnixNano (t : Time) : Z := wrap64 t.

(** [t.Sub(u)] saturates at the bounds of [time.Duration]. *)
Definition Time_Sub (t u : Time) : Z :=
  Z.max int64_min (Z.min int64_max (t - u)).

Definition time_Second : Z := 10 ^ 9.
Definition time_Hour : Z := 3600 * 10 ^ 9.

(** A 128-bit identifier; [uuid.Nil] is all zeroes. *)
Definition UUID : Type := N.
Definition uuid_Nil : UUID := 0%N.

Definition hex_digit (d : N) : ascii :=
  match d with
  | 0 => "0" | 1 => "1" | 2 => "2" | 3 => "3" | 4 => "4" | 5 => "5"
  | 6 => "6" | 7 => "7" | 8 => "8" | 9 => "9" | 10 => "a" | 11 => "b"
  | 12 => "c" | 13 => "d" | 14 => "e" | _ => "f"
  end%N%char.

Fixpoint hex_fixed (digits : nat) (x : N) (acc : string) : string :=
  match digits with
  | O => acc
  | S digits' => hex_fixed digits' (x / 16)%N (String (hex_digit (x mod 16)%N) acc)
  end.

(** [UUID.String()]: the canonical 8-4-4-4-12 form. *)
Definition uuid_String (u : UUID) : string :=
  let h := hex_fixed 32 u "" in
  substring 0 8 h +:+ "-" +:+ substring 8 4 h +:+ "-" +:+ substring 12 4 h
    +:+ "-" +:+ substring 16 4 h +:+ "-" +:+ substring 20 12 h.

Definition float64 : Type := PrimFloat.float.

(** [int64(f)]: truncation toward zero; a value that does not fit (or a
    NaN) gives the smallest [int64], as the conversion does on amd64. *)
Definition int64_of_float64 (f : float64) : Z :=
  match FloatOps.Prim2SF f with
  | SpecFloat.S754_zero _ => 0
  | SpecFloat.S754_finite s m e =>
      let mag := if bool_decide (0 <= e) then Z.pos m * 2 ^ e
                 else Z.pos m / 2 ^ (- e) in
      let v := if s then - mag else mag in
      if bool_decide (int64_min <= v <= int64_max) then v else int64_min
  | _ => int64_min
  end.

Definition float64_1000 : float64 :=
  Eval cbv in FloatOps.SF2Prim (SpecFloat.S754_finite false 1000 0).

(** [strings.Contains]. *)
Fixpoint strings_Contains (s substr : string) : bool :=
  if String.prefix substr s then true
  else match s with
       | EmptyString => false
       | String _ rest => strings_Contains rest substr
       end.

(** *** Types of [metrics/kubelet.go] *)

Record CPUStats : Type := mkCPU {
  CPU_Time : Time;
  UsageCoreNanoSeconds : Z
}.

Record MemoryStats : Type := mkMemory {
  Memory_Time : Time;
  RSSBytes : Z
}.

Record RootFSStats : Type := mkRootFS {
  RootFS_Time : Time;
  RootFS_UsedBytes : Z
}.

Record FSStats : Type := mkFS {
  FS_Time : Time;
  FS_UsedBytes : Z;
  FS_CapacityBytes : Z
}.

Record NetworkStats : Type := mkNetwork {
  Network_Time : Time;
  RxBytes : Z;
  RxErrors : Z;
  TxBytes : Z;
  TxErrors : Z
}.

Record KubeletSummaryContainer : Type := mkSummaryContainer {
  ksc_Name : string;
  StartTime : Time;
  ksc_CPU : CPUStats;
  ksc_Memory : MemoryStats;
  ksc_RootFS : RootFSStats
}.

Record PodRef : Type := mkPodRef {
  PodRef_Name : string;
  PodRef_Namespace : string
}.

Record SummaryPod : Type := mkSummaryPod {
  pod_PodRef : PodRef;
  pod_Containers : list KubeletSummaryContainer;
  pod_Network : NetworkStats
}.

Record SummaryNode : Type := mkSummaryNode {
  node_CPU : CPUStats;
  node_Memory : MemoryStats;
  node_FS : FSStats;
  node_Network : NetworkStats
}.

Record KubeletSummary : Type := mkSummary {
  summary_Node : SummaryNode;
  summary_Pods : list SummaryPod
}.

Record KubeletValue : Type := mkKubeletValue {
  kv_Timestamp : Time;
  kv_Value : Z
}.

Record backOff : Type := mkBackOff {
  sleep : Z;
  maxRetries : Z
}.

Record containerMetricStore : Type := mkStore {
  cms_ApplicationID : UUID;
  cms_ServiceID : UUID;
  cms_ContainerID : UUID;
  cms_Namespace : string;
  cms_PodName : string;
  cms_ContainerName : string;
  cms_Timestamp : Time;
  cms_Value : float64
}.

(** *** What the scraper consumes from packages [kuber] and [scanner]
    (their sources are not part of this development: the records keep the
    fields, and [Scanner] the methods, that [GetMetrics] uses). *)

Record NodeCapacity : Type := mkCapacity {
  Capacity_CPU : Z;
  Capacity_Memory : Z
}.

Record Node : Type := mkNode {
  Node_ID : UUID;
  Node_Name : string;
  InstanceType : string;
  InstanceSize : string;
  Capacity : NodeCapacity;
  Allocatable : NodeCapacity
}.

(** The four quantities read off a [ResourceRequirements]:
    [Requests.Cpu().MilliValue()], [Limits.Cpu().MilliValue()],
    [Requests.Memory().Value()], [Limits.Memory().Value()]. *)
Record ResourceRequirements : Type := mkRequirements {
  Requests_Cpu_MilliValue : Z;
  Limits_Cpu_MilliValue : Z;
  Requests_Memory_Value : Z;
  Limits_Memory_Value : Z
}.

Record Container : Type := mkContainer {
  Container_ID : UUID;
  Resources : ResourceRequirements;
  Resources_SpecResourceRequirements : ResourceRequirements
}.

Record Service : Type := mkService {
  Service_ID : UUID;
  Service_Containers : list Container
}.

Record Application : Type := mkApplication {
  Application_ID : UUID;
  Services : list Service
}.

Record Scanner : Type := mkScanner {
  GetNodes : list Node;
  NodesLastScanTime : Time;
  GetApplications : list Application;
  AppsLastScanTime : Time;
  FindService : string -> string -> option (UUID * UUID);
  FindContainer : string -> string -> string -> option (UUID * UUID * Container);
  FindContainerByPodUIDContainerName : string -> string -> option (UUID * UUID * UUID)
}.

(** Modelled from the spec: the scope tags of a metric record, declared in
    a file of package metrics that is not part of this development; the
    wire protocol names them cluster, node, pod and pod_container. *)
Definition TypeCluster : string := "cluster".
Definition TypeNode : string := "node".
Definition TypePod : string := "pod".
Definition TypePodContainer : string := "pod_container".

(** The metric record ([Metrics]), with the fields [GetMetrics] fills. *)
Record Metrics : Type := mkMetrics {
  Name : string;
  Type_ : string;
  Node_ : UUID;
  Application_ : UUID;
  Service_ : UUID;
  Container_ : UUID;
  Timestamp : Time;
  Value : Z;
  PodName : string;
  AdditionalTags : option (gmap string string)
}.

(** A decoded JSON document ([interface{}]); [JNull] is the nil interface. *)
Inductive json : Type :=
| JNull
| JBool (b : bool)
| JNumber (literal : string)
| JString (s : string)
| JArray (items : list json)
| JObject (fields : list (string * json)).

(** What [getCAdvisorContainerValue] returns for one sample of the
    exposition document: [(podUID, containerName, _, value, ok)]. *)
Record CAdvisorSample : Type := mkSample {
  sample_podUID : string;
  sample_containerName : string;
  sample_value : float64;
  sample_ok : bool
}.

(** *** The kubelet object and its surroundings *)

(** The configuration of a [Kubelet], and everything outside it that one
    [GetMetrics] call reads: the scanner, the tick time, the clock, the
    answers of the nodes and the decoders of the two documents. *)
Record Env : Type := mkEnv {
  scanner : Scanner;
  tickTime : Time;
  timeouts_backoff : backOff;
  optInAnalysisData : bool;
  (** [time.Now()] in [collectGarbage] and in the task of a node *)
  now_collectGarbage : Time;
  now_task : Node -> Time;
  (** the answer of [kubeletClient.GetBytes(&node, path)] to the n-th call
      for that node and path (counting from 0) *)
  GetBytes : Node -> string -> nat -> result string;
  json_Unmarshal_interface : string -> result json;
  json_Unmarshal_summary : string -> result KubeletSummary;
  decodeCAdvisorResponse : string -> result (gmap string (list CAdvisorSample))
}.

(** What a [GetMetrics] call changes: the rate table [kubelet.previous],
    the accumulators [metrics] and [rawResponses] of the cycle, and, as a
    record of its effects, the requests sent and the sleeps taken. *)
Record State : Type := mkState {
  previous : gmap string KubeletValue;
  metrics_ : list Metrics;
  rawResponses : gmap string json;
  requests : list (UUID * string);
  slept : list Z
}.

Definition set_previous (f : gmap string KubeletValue -> gmap string KubeletValue)
    (st : State) : State :=
  mkState (f (previous st)) (metrics_ st) (rawResponses st) (requests st) (slept st).

Definition append_metric (m : Metrics) (st : State) : State :=
  mkState (previous st) (metrics_ st ++ [m]) (rawResponses st) (requests st) (slept st).

(** *** Rate table *)

Definition collectGarbage (env : Env) (st : State) : State :=
  set_previous
    (filter (fun kv => ~ (Time_Sub (now_collectGarbage env) (kv_Timestamp kv.2) > time_Hour)))
    st.

Definition getPreviousValue (st : State) (key : string) : result KubeletValue :=
  match previous st !! key with
  | None => Err (karma_Format None "No previous value")
  | Some previous => Ok (mkKubeletValue (kv_Timestamp previous) (kv_Value previous))
  end.

Definition updatePreviousValue (key : string) (value : KubeletValue) (st : State)
  : State :=
  set_previous <[key := value]> st.

Definition getKey (entity parentKey entityKey measurement : string) : string :=
  let parentKey := if decide (parentKey <> "") then parentKey +:+ ":" else parentKey in
  entity +:+ "-" +:+ measurement +:+ ":" +:+ parentKey +:+ entityKey.

Definition calcRate (st : State) (key : string) (timestamp : Time)
    (value multiplier : Z) : result Z :=
  match getPreviousValue st key with
  | Err err => Err err
  | Ok previous =>
      let duration :=
        sub64 (Time_UnixNano timestamp) (Time_UnixNano (kv_Timestamp previous)) in
      if decide (duration <= time_Second) then
        Err (karma_Format None "timestamp less than or equal previous one")
      else
        let previousValue := kv_Value previous in
        let previousValue :=
          if decide (previousValue > value) then 0 else previousValue in
        let rate := quot64 (mul64 multiplier (sub64 value previousValue)) duration in
        Ok rate
  end.

(** *** The closures of [GetMetrics] that append to the batch *)

Definition addMetricValue (env : Env) (measurementType measurement : string)
    (nodeID applicationID serviceID containerID : UUID) (podName : string)
    (timestamp : Time) (value : Z) (st : State) : State :=
  let timestamp :=
    if Time_Equal timestamp time_zero then tickTime env else timestamp in
  append_metric
    (mkMetrics measurement measurementType nodeID applicationID serviceID
               containerID timestamp value podName None)
    st.

Definition addMetricValueWithTags (measurementType measurement : string)
    (nodeID applicationID serviceID containerID : UUID) (podName : string)
    (timestamp : Time) (value : Z) (additionalTags : gmap string string)
    (st : State) : State :=
  append_metric
    (mkMetrics measurement measurementType nodeID applicationID serviceID
               containerID timestamp value podName (Some additionalTags))
    st.

Definition addMetricValueRate (env : Env)
    (measurementType parentKey entityKey measurement : string)
    (nodeID applicationID serviceID containerID : UUID) (pod : string)
    (timestamp : Time) (value multiplier : Z) (st : State) : State :=
  let timestamp :=
    if Time_Equal timestamp time_zero then tickTime env else timestamp in
  let key := getKey measurementType parentKey entityKey measurement in
  let rate_err := calcRate st key timestamp value multiplier in
  let st := updatePreviousValue key (mkKubeletValue timestamp value) st in
  match rate_err with
  | Err _ => st
  | Ok rate =>
      addMetricValue env measurementType measurement nodeID applicationID
                     serviceID containerID pod timestamp rate st
  end.

Definition addRawResponse (nodeID : UUID) (data : json) (st : State) : State :=
  mkState (previous st) (metrics_ st) (<[uuid_String nodeID := data]> (rawResponses st))
          (requests st) (slept st).

(** *** Retry with backoff *)

(** A state in which [time.Sleep] can be taken. *)
Class Sleeper (S : Type) : Type := time_Sleep : Z -> S -> S.

#[export] Instance State_Sleeper : Sleeper State :=
  fun timeout st =>
    mkState (previous st) (metrics_ st) (rawResponses st) (requests st)
            (slept st ++ [timeout]).

(** A state extended with the local variables a closure captures. *)
#[export] Instance prod_Sleeper {S L : Type} `{Sleeper S} : Sleeper (S * L) :=
  fun timeout sl => (time_Sleep timeout sl.1, sl.2).

(** The loop of [withBackoff], [try] being the counter before [try++].
    [fuel] bounds the number of iterations; [None] is "out of fuel". *)
Fixpoint withBackoff_loop {S : Type} `{Sleeper S} (fuel : nat) (bo : backOff)
    (fn : S -> option error * S) (try : Z) (s : S)
  : option (option error) * S :=
  match fuel with
  | O => (None, s)
  | Datatypes.S fuel' =>
      let maxRetry := maxRetries bo in
      let try := try + 1 in
      let '(err, s) := fn s in
      match err with
      | None => (Some None, s)
      | Some err =>
          if decide (try > maxRetry) then
            (Some (Some (karma_Format (Some err) "max retries exceeded")), s)
          else
            let timeout := mul64 (sleep bo) (Z.rem (try - 1) 10 + 1) in
            withBackoff_loop fuel' bo fn try (time_Sleep timeout s)
      end
  end.

(** Enough fuel for every iteration the loop can take. *)
Definition withBackoff_fuel (bo : backOff) : nat :=
  Datatypes.S (Z.to_nat (maxRetries bo)).

Definition withBackoff {S : Type} `{Sleeper S} (bo : backOff)
    (fn : S -> option error * S) (s : S) : option error * S :=
  match withBackoff_loop (withBackoff_fuel bo) bo fn 0 s with
  | (Some err, s) => (err, s)
  | (None, s) => (Some (external_error "withBackoff: out of fuel"), s)
  end.

(** Instrumentation for statements about a run of [withBackoff]: the state
    of the wrapped function, the number of times it was invoked and the
    sleeps taken between the invocations. *)
Record Probe (S : Type) : Type := mkProbe {
  probe_state : S;
  probe_calls : nat;
  probe_slept : list Z
}.
Arguments mkProbe {S} _ _ _.
Arguments probe_state {S} _.
Arguments probe_calls {S} _.
Arguments probe_slept {S} _.

#[export] Instance Probe_Sleeper {S : Type} `{Sleeper S} : Sleeper (Probe S) :=
  fun timeout p =>
    mkProbe (time_Sleep timeout (probe_state p)) (probe_calls p)
            (probe_slept p ++ [timeout]).

Definition probed {S : Type} (fn : S -> option error * S)
  : Probe S -> option error * Probe S :=
  fun p =>
    let '(err, s) := fn (probe_state p) in
    (err, mkProbe s (Datatypes.S (probe_calls p)) (probe_slept p)).

Definition probe_start {S : Type} (s : S) : Probe S := mkProbe s O [].

(** *** Fetching the two documents of a node *)

Definition not_found_message : string :=
  "the server could not find the requested resource".

(** [err.Error()]: the message of a leaf; for a wrapped error, the
    message followed by the rendering of its reason (karma's layout of
    the two is abbreviated to a colon). *)
Fixpoint Error (err : error) : string :=
  match err with
  | karma_Format (Some reason) msg => msg +:+ ": " +:+ Error reason
  | karma_Format None msg => msg
  | fmt_Errorf msg => msg
  | external_error msg => msg
  end.

(** The number of [GetBytes] calls made so far for [node] and [path], and
    the state with one more of them on record. *)
Definition calls_so_far (node : Node) (path : string) (st : State) : nat :=
  length (filter (fun r => r = (Node_ID node, path)) (requests st)).

Definition record_request (node : Node) (path : string) (st : State) : State :=
  mkState (previous st) (metrics_ st) (rawResponses st)
          (requests st ++ [(Node_ID node, path)]) (slept st).

(** One more [GetBytes] call for [node] and [path]: the call is recorded
    and answered by the environment. *)
Definition call_GetBytes (env : Env) (node : Node) (path : string) (st : State)
  : result string * State :=
  (GetBytes env node path (calls_so_far node path st), record_request node path st).

(** The closure passed to [withBackoff] for a document; the second
    component of the state is the captured variable that receives the
    bytes ([summaryBytes], [cadvisorResponse]). The node name is appended
    to the message without the quotes of [%q]. *)
Definition fetch (env : Env) (node : Node) (path : string) (empty : string)
    (errmsg : string) : State * string -> option error * (State * string) :=
  fun '(st, bytes) =>
    match call_GetBytes env node path st with
    | (Ok bytes', st) => (None, (st, bytes'))
    | (Err err, st) =>
        if strings_Contains (Error err) not_found_message then
          (None, (st, empty))
        else
          (Some (karma_Format (Some err) (errmsg +:+ Node_Name node)), (st, ""))
    end.

Definition fetch_summary (env : Env) (node : Node) :=
  fetch env node "stats/summary" "{}" "{kubelet} unable to get summary from node ".

Definition fetch_cadvisor (env : Env) (node : Node) :=
  fetch env node "metrics/cadvisor" "" "{kubelet} unable to get cadvisor from node ".

(** *** The task of one node *)

(** A loop over a literal table of [(Name, Time, Value)] rows, each row
    appended with [addMetricValue]. *)
Definition add_values (env : Env) (measurementType : string)
    (nodeID applicationID serviceID containerID : UUID) (podName : string)
    (rows : list (string * Time * Z)) (st : State) : State :=
  fold_left
    (fun st '(name, time, value) =>
       addMetricValue env measurementType name nodeID applicationID serviceID
                      containerID podName time value st)
    rows st.

(** The same for [(Name, Time, Value, Multiplier)] rows and
    [addMetricValueRate]. *)
Definition add_rates (env : Env) (measurementType parentKey entityKey : string)
    (nodeID applicationID serviceID containerID : UUID) (pod : string)
    (rows : list (string * Time * Z * Z)) (st : State) : State :=
  fold_left
    (fun st '(name, time, value, multiplier) =>
       addMetricValueRate env measurementType parentKey entityKey name nodeID
                          applicationID serviceID containerID pod time value
                          multiplier st)
    rows st.

(** The workaround for containers reported twice: one entry per name, a
    later-started container overriding the one found. *)
Definition dedup_step (podContainers : gmap string KubeletSummaryContainer)
    (container : KubeletSummaryContainer) : gmap string KubeletSummaryContainer :=
  match podContainers !! ksc_Name container with
  | None => <[ksc_Name container := container]> podContainers
  | Some foundContainer =>
      if Time_After (StartTime container) (StartTime foundContainer) then
        <[ksc_Name container := container]> podContainers
      else podContainers
  end.

Definition podContainers_of (containers : list KubeletSummaryContainer)
  : gmap string KubeletSummaryContainer :=
  fold_left dedup_step containers ∅.

(** The containers the emission loop ranges over (in some order). *)
Definition emitted_containers (pod : SummaryPod) : list KubeletSummaryContainer :=
  (map_to_list (podContainers_of (pod_Containers pod))).*2.

Definition defaultMetricStore (applicationID serviceID : UUID)
    (identifiedContainer : Container) (namespace podName : string)
    (container : KubeletSummaryContainer) : containerMetricStore :=
  mkStore applicationID serviceID (Container_ID identifiedContainer)
          namespace podName (ksc_Name container)
          (CPU_Time (ksc_CPU container)) PrimFloat.zero.

Abbreviation throttleTable := (gmap UUID (gmap string containerMetricStore)).

(** The body of the loop over [podContainers]. *)
Definition scrape_container (env : Env) (node : Node) (pod : SummaryPod)
    (acc : State * throttleTable) (container : KubeletSummaryContainer)
  : State * throttleTable :=
  let '(st, throttleMetrics) := acc in
  let namespace := PodRef_Namespace (pod_PodRef pod) in
  let podName := PodRef_Name (pod_PodRef pod) in
  match FindContainer (scanner env) namespace podName (ksc_Name container) with
  | None => acc
  | Some (applicationID, serviceID, identifiedContainer) =>
      let spec := Resources_SpecResourceRequirements identifiedContainer in
      let cpu := ksc_CPU container in
      let memory := ksc_Memory container in
      let st :=
        add_values env TypePodContainer (Node_ID node) applicationID serviceID
          (Container_ID identifiedContainer) podName
          [ ("cpu/usage", CPU_Time cpu, UsageCoreNanoSeconds cpu);
            ("memory/rss", Memory_Time memory, RSSBytes memory);
            ("filesystem/usage", RootFS_Time (ksc_RootFS container),
               RootFS_UsedBytes (ksc_RootFS container));
            ("cpu/request", CPU_Time cpu, Requests_Cpu_MilliValue spec);
            ("cpu/limit", CPU_Time cpu, Limits_Cpu_MilliValue spec);
            ("memory/request", Memory_Time memory, Requests_Memory_Value spec);
            ("memory/limit", Memory_Time memory, Limits_Memory_Value spec) ]
          st in
      let st :=
        addMetricValueRate env TypePodContainer (namespace +:+ ":" +:+ podName)
          (ksc_Name container) "cpu/usage_rate" (Node_ID node) applicationID
          serviceID (Container_ID identifiedContainer) podName
          (CPU_Time cpu) (UsageCoreNanoSeconds cpu) 1000 st in
      let store :=
        defaultMetricStore applicationID serviceID identifiedContainer
                           namespace podName container in
      let throttleMetrics :=
        <[Container_ID identifiedContainer :=
            <["container_cpu_cfs_throttled/periods_total" := store]>
              (<["container_cpu_cfs_throttled/seconds_total" := store]>
                 (<["container_cpu_cfs/periods_total" := store]> ∅))]>
          throttleMetrics in
      (st, throttleMetrics)
  end.

(** The body of the loop over [summary.Pods]. *)
Definition scrape_pod (env : Env) (node : Node) (acc : State * throttleTable)
    (pod : SummaryPod) : State * throttleTable :=
  let '(st, throttleMetrics) := acc in
  let namespace := PodRef_Namespace (pod_PodRef pod) in
  let podName := PodRef_Name (pod_PodRef pod) in
  let network := pod_Network pod in
  match FindService (scanner env) namespace podName with
  | None => acc
  | Some (applicationID, serviceID) =>
      let st :=
        add_values env TypePod (Node_ID node) applicationID serviceID uuid_Nil
          podName
          [ ("network/tx", Network_Time network, TxBytes network);
            ("network/rx", Network_Time network, TxBytes network);
            ("network/tx_errors", Network_Time network, TxErrors network);
            ("network/rx_errors", Network_Time network, RxErrors network) ]
          st in
      let st :=
        add_rates env TypePod namespace podName (Node_ID node) applicationID
          serviceID uuid_Nil podName
          [ ("network/tx_rate", Network_Time network, TxBytes network, 10 ^ 9);
            ("network/rx_rate", Network_Time network, TxBytes network, 10 ^ 9);
            ("network/tx_errors_rate", Network_Time network, TxErrors network, 10 ^ 9);
            ("network/rx_errors_rate", Network_Time network, RxErrors network, 10 ^ 9) ]
          st in
      fold_left (scrape_container env node pod) (emitted_containers pod)
                (st, throttleMetrics)
  end.

(** The node block of the summary. *)
Definition scrape_node_block (env : Env) (node : Node) (summary : KubeletSummary)
    (st : State) : State :=
  let n := summary_Node summary in
  let st :=
    add_values env TypeNode (Node_ID node) uuid_Nil uuid_Nil uuid_Nil ""
      [ ("cpu/usage", CPU_Time (node_CPU n), UsageCoreNanoSeconds (node_CPU n));
        ("memory/rss", Memory_Time (node_Memory n), RSSBytes (node_Memory n));
        ("filesystem/usage", FS_Time (node_FS n), FS_UsedBytes (node_FS n));
        ("filesystem/node_capacity", FS_Time (node_FS n), FS_CapacityBytes (node_FS n));
        ("filesystem/node_allocatable", FS_Time (node_FS n), FS_CapacityBytes (node_FS n));
        ("network/tx", Network_Time (node_Network n), TxBytes (node_Network n));
        ("network/rx", Network_Time (node_Network n), RxBytes (node_Network n));
        ("network/tx_errors", Network_Time (node_Network n), TxErrors (node_Network n));
        ("network/rx_errors", Network_Time (node_Network n), RxErrors (node_Network n)) ]
      st in
  add_rates env TypeNode "" (uuid_String (Node_ID node)) (Node_ID node)
    uuid_Nil uuid_Nil uuid_Nil ""
    [ ("cpu/usage_rate", CPU_Time (node_CPU n), UsageCoreNanoSeconds (node_CPU n), 1000);
      ("network/tx_rate", Network_Time (node_Network n), TxBytes (node_Network n), 10 ^ 9);
      ("network/rx_rate", Network_Time (node_Network n), RxBytes (node_Network n), 10 ^ 9);
      ("network/tx_errors_rate", Network_Time (node_Network n), TxErrors (node_Network n), 10 ^ 9);
      ("network/rx_errors_rate", Network_Time (node_Network n), RxErrors (node_Network n), 10 ^ 9) ]
    st.

(** [storedMetric.Value = value] for one sample of the exposition
    document, when the sample resolves to a container of the summary. *)
Definition store_sample (env : Env) (metricName : string)
    (throttleMetrics : throttleTable) (val : CAdvisorSample) : throttleTable :=
  if sample_ok val then
    match FindContainerByPodUIDContainerName (scanner env)
            (sample_podUID val) (sample_containerName val) with
    | Some (_, _, containerID) =>
        match throttleMetrics !! containerID with
        | Some storedMetrics =>
            match storedMetrics !! metricName with
            | Some storedMetric =>
                let storedMetric :=
                  mkStore (cms_ApplicationID storedMetric) (cms_ServiceID storedMetric)
                          (cms_ContainerID storedMetric) (cms_Namespace storedMetric)
                          (cms_PodName storedMetric) (cms_ContainerName storedMetric)
                          (cms_Timestamp storedMetric) (sample_value val) in
                <[containerID := <[metricName := storedMetric]> storedMetrics]>
                  throttleMetrics
            | None => throttleMetrics
            end
        | None => throttleMetrics
        end
    | None => throttleMetrics
    end
  else throttleMetrics.

Definition throttle_refs : list (string * string) :=
  [ ("container_cpu_cfs/periods_total", "container_cpu_cfs_periods_total");
    ("container_cpu_cfs_throttled/periods_total", "container_cpu_cfs_throttled_periods_total");
    ("container_cpu_cfs_throttled/seconds_total", "container_cpu_cfs_throttled_seconds_total") ].

Definition store_samples (env : Env) (cadvisor : gmap string (list CAdvisorSample))
    (throttleMetrics : throttleTable) : throttleTable :=
  fold_left
    (fun throttleMetrics '(name, ref) =>
       fold_left (store_sample env name) (default [] (cadvisor !! ref))
                 throttleMetrics)
    throttle_refs throttleMetrics.

(** The absolute value and the rate of one stored throttle metric. *)
Definition emit_stored (env : Env) (node : Node) (summary : KubeletSummary)
    (now : Time) (st : State) (entry : string * containerMetricStore) : State :=
  let '(metricName, storedMetric) := entry in
  let st :=
    addMetricValue env TypePodContainer metricName (Node_ID node)
      (cms_ApplicationID storedMetric) (cms_ServiceID storedMetric)
      (cms_ContainerID storedMetric) (cms_PodName storedMetric)
      (CPU_Time (node_CPU (summary_Node summary)))
      (int64_of_float64 (cms_Value storedMetric)) st in
  let rateValue := cms_Value storedMetric in
  let rateValue :=
    if strings_Contains metricName "seconds"
    then PrimFloat.mul rateValue float64_1000 else rateValue in
  addMetricValueRate env TypePodContainer
    (cms_Namespace storedMetric +:+ ":" +:+ cms_PodName storedMetric)
    (cms_ContainerName storedMetric) (metricName +:+ "_rate") (Node_ID node)
    (cms_ApplicationID storedMetric) (cms_ServiceID storedMetric)
    (cms_ContainerID storedMetric) (cms_PodName storedMetric)
    now (int64_of_float64 rateValue) (10 ^ 9) st.

Definition emit_throttle (env : Env) (node : Node) (summary : KubeletSummary)
    (now : Time) (throttleMetrics : throttleTable) (st : State) : State :=
  fold_left
    (fun st '(_, storedMetrics) =>
       fold_left (emit_stored env node summary now) (map_to_list storedMetrics) st)
    (map_to_list throttleMetrics) st.

(** What follows a successful fetch of the exposition document. *)
Definition process_cadvisor (env : Env) (node : Node) (summary : KubeletSummary)
    (throttleMetrics : throttleTable) (cadvisorResponse : string) (st : State)
  : option error * State :=
  match decodeCAdvisorResponse env cadvisorResponse with
  | Err err =>
      (Some (karma_Format (Some err) "{kubelet} unable to read cadvisor response"), st)
  | Ok cadvisor =>
      let now := now_task env node in
      let throttleMetrics := store_samples env cadvisor throttleMetrics in
      (None, emit_throttle env node summary now throttleMetrics st)
  end.

(** What follows the pods loop: the exposition document. *)
Definition scrape_cadvisor (env : Env) (node : Node) (summary : KubeletSummary)
    (throttleMetrics : throttleTable) (st : State) : option error * State :=
  let '(err, (st, cadvisorResponse)) :=
    withBackoff (timeouts_backoff env) (fetch_cadvisor env node) (st, "") in
  match err with
  | Some err => (Some err, st)
  | None => process_cadvisor env node summary throttleMetrics cadvisorResponse st
  end.

(** What follows a successful fetch of the summary. *)
Definition process_summary (env : Env) (node : Node) (summaryBytes : string)
    (st : State) : option error * State :=
  let st :=
    if optInAnalysisData env then
      match json_Unmarshal_interface env summaryBytes with
      | Ok JNull => st
      | Ok summaryInterface => addRawResponse (Node_ID node) summaryInterface st
      | Err _ => st
      end
    else st in
  match json_Unmarshal_summary env summaryBytes with
  | Err err =>
      (Some (karma_Format (Some err) "{kubelet} unable to unmarshal summary response"), st)
  | Ok summary =>
      let st := scrape_node_block env node summary st in
      let '(st, throttleMetrics) :=
        fold_left (scrape_pod env node) (summary_Pods summary) (st, ∅) in
      scrape_cadvisor env node summary throttleMetrics st
  end.

(** The function given to the concurrent processor. *)
Definition node_task (env : Env) (node : Node) (st : State) : option error * State :=
  let '(err, (st, summaryBytes)) :=
    withBackoff (timeouts_backoff env) (fetch_summary env node) (st, "") in
  match err with
  | Some err => (Some err, st)
  | None => process_summary env node summaryBytes st
  end.

(** *** [GetMetrics] *)

Definition instanceGroup_of (node : Node) : string :=
  let instanceGroup := "" in
  let instanceGroup :=
    if decide (InstanceType node <> "") then InstanceType node else instanceGroup in
  if decide (InstanceSize node <> "")
  then instanceGroup +:+ "." +:+ InstanceSize node else instanceGroup.

Definition count_instanceGroups (nodes : list Node) : gmap string Z :=
  fold_left
    (fun instanceGroups node =>
       let instanceGroup := instanceGroup_of node in
       let instanceGroups :=
         match instanceGroups !! instanceGroup with
         | Some _ => instanceGroups
         | None => <[instanceGroup := 0]> instanceGroups
         end in
       <[instanceGroup := add64 (default 0 (instanceGroups !! instanceGroup)) 1]>
         instanceGroups)
    nodes ∅.

(** The emissions made from the snapshot alone, before the tasks run. *)
Definition add_cluster_counts (env : Env) (st : State) : State :=
  let nodes := GetNodes (scanner env) in
  let nodesScanTime := NodesLastScanTime (scanner env) in
  let st :=
    addMetricValue env TypeCluster "nodes/count" uuid_Nil uuid_Nil uuid_Nil uuid_Nil
                   "" nodesScanTime (Z.of_nat (length nodes)) st in
  fold_left
    (fun st '(instanceGroup, nodesCount) =>
       addMetricValueWithTags TypeCluster "nodes/count" uuid_Nil uuid_Nil uuid_Nil
         uuid_Nil "" nodesScanTime nodesCount {[ "instance_group" := instanceGroup ]} st)
    (map_to_list (count_instanceGroups nodes)) st.

Definition add_node_capacities (env : Env) (st : State) : State :=
  let nodesScanTime := NodesLastScanTime (scanner env) in
  fold_left
    (fun st node =>
       add_values env TypeNode (Node_ID node) uuid_Nil uuid_Nil uuid_Nil ""
         [ ("cpu/node_capacity", nodesScanTime, Capacity_CPU (Capacity node));
           ("cpu/node_allocatable", nodesScanTime, Capacity_CPU (Allocatable node));
           ("memory/node_capacity", nodesScanTime, Capacity_Memory (Capacity node));
           ("memory/node_allocatable", nodesScanTime, Capacity_Memory (Allocatable node)) ]
         st)
    (GetNodes (scanner env)) st.

Definition add_container_spec (env : Env) (app : Application) (service : Service)
    (st : State) (container : Container) : State :=
  let scanTime := AppsLastScanTime (scanner env) in
  fold_left
    (fun st '(name, value) =>
       addMetricValue env TypePodContainer name uuid_Nil (Application_ID app)
                      (Service_ID service) (Container_ID container) "" scanTime value st)
    [ ("cpu/request", Requests_Cpu_MilliValue (Resources container));
      ("cpu/limit", Limits_Cpu_MilliValue (Resources container));
      ("memory/request", Requests_Memory_Value (Resources container));
      ("memory/limit", Limits_Memory_Value (Resources container)) ]
    st.

Definition add_spec_values (env : Env) (st : State) : State :=
  fold_left
    (fun st app =>
       fold_left
         (fun st service =>
            fold_left (add_container_spec env app service)
                      (Service_Containers service) st)
         (Services app) st)
    (GetApplications (scanner env)) st.

(** [pr.Do()]: one task per node, each with its own error. The processor
    runs the tasks concurrently; they share the batch and the rate table
    under their mutexes, and are modelled here by the schedule that runs
    them one after the other in the order of the node list. A task that
    fails does not stop the others. (The processor is built from a slice
    and a function of its element, so its constructor does not fail and
    the [panic] that guards it is not reached.) *)
Definition run_tasks (env : Env) (nodes : list Node) (st : State)
  : list (option error) * State :=
  fold_left
    (fun '(errs, st) node =>
       let '(err, st) := node_task env node st in (errs ++ [err], st))
    nodes ([], st).

(** The part of [GetMetrics] that precedes [pr.Do()]: garbage collection
    and the emissions made from the snapshot. *)
Definition before_tasks (env : Env) (previous : gmap string KubeletValue) : State :=
  let st := mkState previous [] ∅ [] [] in
  let st := collectGarbage env st in
  let st := add_cluster_counts env st in
  let st := add_node_capacities env st in
  let st := add_spec_values env st in
  st.

(** [GetMetrics]: the triple it returns, and the state it leaves. *)
Definition GetMetrics (env : Env) (previous : gmap string KubeletValue)
  : (list Metrics * option (gmap string json) * option error) * State :=
  let st := before_tasks env previous in
  let '(errs, st) := run_tasks env (GetNodes (scanner env)) st in
  let result := fold_left (fun result metrics => result ++ [metrics]) (metrics_ st) [] in
  let rawResponses := if optInAnalysisData env then Some (rawResponses st) else None in
  ((result, rawResponses, None), st).

(** *** Vocabulary of the statements *)

(** The [duration] that [calcRate] computes between two timestamps. *)
Definition elapsed (t1 t0 : Time) : Z :=
  sub64 (Time_UnixNano t1) (Time_UnixNano t0).

(** The timestamp a closure works with: the tick time for a zero one. *)
Definition effective (env : Env) (timestamp : Time) : Time :=
  if Time_Equal timestamp time_zero then tickTime env else timestamp.

(** When [calcRate] fails: no previous point, or a new timestamp at most
    one second after the stored one. *)
Definition rate_fails (st : State) (key : string) (timestamp : Time) : Prop :=
  previous st !! key = None
  \/ exists previous_point,
      previous st !! key = Some previous_point /\
      elapsed timestamp (kv_Timestamp previous_point) <= time_Second.

(** The sleep that follows the failed attempt number [try] (from 1). *)
Definition backoff_sleep (bo : backOff) (try : nat) : Z :=
  mul64 (sleep bo) ((Z.of_nat try - 1) mod 10 + 1).

(** The identifiers a scope tag requires, as the specification lists
    them. *)
Definition scope_ids (type : string) (node application service container : UUID)
  : Prop :=
  (type = TypeCluster /\ node = uuid_Nil /\ application = uuid_Nil
     /\ service = uuid_Nil /\ container = uuid_Nil)
  \/ (type = TypeNode /\ node <> uuid_Nil /\ application = uuid_Nil
        /\ service = uuid_Nil /\ container = uuid_Nil)
  \/ (type = TypePod /\ node <> uuid_Nil /\ application <> uuid_Nil
        /\ service <> uuid_Nil /\ container = uuid_Nil)
  \/ (type = TypePodContainer /\ node <> uuid_Nil /\ application <> uuid_Nil
        /\ service <> uuid_Nil /\ container <> uuid_Nil).

(** The identifiers of a record emitted from the snapshot for a container
    of a service: no node. *)
Definition snapshot_container_ids (type : string)
    (node application service container : UUID) : Prop :=
  type = TypePodContainer /\ node = uuid_Nil /\ application <> uuid_Nil
  /\ service <> uuid_Nil /\ container <> uuid_Nil.

Definition on_ids (Q : string -> UUID -> UUID -> UUID -> UUID -> Prop)
    (m : Metrics) : Prop :=
  Q (Type_ m) (Node_ m) (Application_ m) (Service_ m) (Container_ m).

Definition scope_ok : Metrics -> Prop := on_ids scope_ids.

Definition snapshot_container_record : Metrics -> Prop :=
  on_ids snapshot_container_ids.

(** What the map of the workaround holds after the containers [seen]:
    every entry is filed under its own name and comes from [seen], and
    every container seen is covered by an entry of its name that started
    no earlier. *)
Definition dedup_inv (m : gmap string KubeletSummaryContainer)
    (seen : list KubeletSummaryContainer) : Prop :=
  (forall k v, m !! k = Some v -> ksc_Name v = k /\ v ∈ seen)
  /\ (forall c, c ∈ seen ->
        exists v, m !! ksc_Name c = Some v /\ StartTime c <= StartTime v).

(** [st'] is [st] with more records appended, each with identifiers that
    satisfy [Q]; nothing that was in the batch is dropped or changed. *)
Definition appends (Q : string -> UUID -> UUID -> UUID -> UUID -> Prop)
    (st st' : State) : Prop :=
  exists suffix, metrics_ st' = metrics_ st ++ suffix /\ Forall (on_ids Q) suffix.

(** Every stored throttle metric of a node task carries identifiers that
    satisfy [Q] at the container scope of that node. *)
Definition throttle_ok (Q : string -> UUID -> UUID -> UUID -> UUID -> Prop)
    (node : Node) (throttleMetrics : throttleTable) : Prop :=
  forall containerID storedMetrics metricName storedMetric,
    throttleMetrics !! containerID = Some storedMetrics ->
    storedMetrics !! metricName = Some storedMetric ->
    Q TypePodContainer (Node_ID node) (cms_ApplicationID storedMetric)
      (cms_ServiceID storedMetric) (cms_ContainerID storedMetric).

(** No constraint on the identifiers of a record. *)
Definition any_ids (type : string) (node application service container : UUID)
  : Prop := True.

(** The state in which the emissions from the snapshot start. *)
Definition start_state (env : Env) (previous : gmap string KubeletValue) : State :=
  collectGarbage env (mkState previous [] ∅ [] []).

(** The scanner hands out no nil identifier. *)
Definition scanner_ids_ok (sc : Scanner) : Prop :=
  (forall node, node ∈ GetNodes sc -> Node_ID node <> uuid_Nil)
  /\ (forall app service container,
        app ∈ GetApplications sc -> service ∈ Services app ->
        container ∈ Service_Containers service ->
        Application_ID app <> uuid_Nil /\ Service_ID service <> uuid_Nil
        /\ Container_ID container <> uuid_Nil)
  /\ (forall namespace pod applicationID serviceID,
        FindService sc namespace pod = Some (applicationID, serviceID) ->
        applicationID <> uuid_Nil /\ serviceID <> uuid_Nil)
  /\ (forall namespace pod name applicationID serviceID container,
        FindContainer sc namespace pod name = Some (applicationID, serviceID, container) ->
        applicationID <> uuid_Nil /\ serviceID <> uuid_Nil
        /\ Container_ID container <> uuid_Nil).

End metrics.

(** ** Sample inputs *)

Module samples.
Import kuber.

(** A deployment whose only container carries a secret in its
    environment and one on its command line. *)
Definition secret_podSpec : PodSpec :=
  mkPodSpec []
    [ mkContainer "app" "registry/app:1" ["/bin/app"] ["--token=abc123"]
                  [ mkEnvVar "DB_PASSWORD" "hunter2" ] ].

Definition web_deployment : Workload := mkWorkload "default" "web" secret_podSpec.

Definition db_statefulSet (strategy : string) : StatefulSet :=
  mkStatefulSet "default" "db" (Some 3) (mkUpdateStrategy strategy None)
                secret_podSpec.

(** An API server with one deployment, one replication controller whose
    template is at address 1, and one stateful set with three replicas
    and the OnDelete strategy; every patch is accepted. *)
Definition platform : Platform :=
  mkPlatform
    (Ok (Some [ mkReplicationController "default" "rc" (Some 1%positive) ]))
    (Ok (Some [ web_deployment ]))
    (Ok (Some []))
    (Ok (Some []))
    (Ok (Some []))
    (Ok (Some []))
    (fun _ _ => Ok (Some (db_statefulSet "OnDelete")))
    {[ 1%positive := secret_podSpec ]}
    (fun _ => None).

End samples.

Module scrape_samples.
Import metrics.

Definition T0 : Time := 1700000000 * 10 ^ 9.

Definition node1 : Node :=
  mkNode 1%N "node-1" "m5" "large" (mkCapacity 4000 16000000000)
         (mkCapacity 3900 15000000000).

Definition node2 : Node :=
  mkNode 2%N "node-2" "m5" "large" (mkCapacity 4000 16000000000)
         (mkCapacity 3900 15000000000).

Definition web_container : Container :=
  mkContainer 30%N (mkRequirements 100 200 64 128) (mkRequirements 100 200 64 128).

Definition web_app : Application :=
  mkApplication 10%N [ mkService 20%N [ web_container ] ].

(** A snapshot with two nodes and one application; the pod web-1 of
    namespace default belongs to its service. *)
Definition snapshot : Scanner :=
  mkScanner [ node1; node2 ] T0 [ web_app ] T0
    (fun namespace pod =>
       if decide (namespace = "default" /\ pod = "web-1")
       then Some (10%N, 20%N) else None)
    (fun namespace pod name =>
       if decide (namespace = "default" /\ pod = "web-1" /\ name = "web")
       then Some (10%N, 20%N, web_container) else None)
    (fun podUID name =>
       if decide (podUID = "uid-1" /\ name = "web")
       then Some (10%N, 20%N, 30%N) else None).

Definition web_stats (start : Time) (usage : Z) : KubeletSummaryContainer :=
  mkSummaryContainer "web" start (mkCPU T0 usage) (mkMemory T0 4096) (mkRootFS T0 512).

(** The summary of node-1: one pod whose container web is reported
    twice, and which has received 7 bytes and sent 99. *)
Definition summary1 : KubeletSummary :=
  mkSummary
    (mkSummaryNode (mkCPU T0 5000) (mkMemory T0 8192) (mkFS T0 100 1000)
                   (mkNetwork T0 11 0 22 0))
    [ mkSummaryPod (mkPodRef "web-1" "default")
        [ web_stats (T0 - 60 * 10 ^ 9) 111; web_stats (T0 - 55 * 10 ^ 9) 222 ]
        (mkNetwork T0 7 0 99 0) ].

(** The summary of node-1 ten seconds later: 1000 more bytes received,
    none sent. *)
Definition summary2 : KubeletSummary :=
  mkSummary
    (mkSummaryNode (mkCPU (T0 + 10 ^ 10) 6000) (mkMemory (T0 + 10 ^ 10) 8192)
                   (mkFS (T0 + 10 ^ 10) 100 1000)
                   (mkNetwork (T0 + 10 ^ 10) 11 0 22 0))
    [ mkSummaryPod (mkPodRef "web-1" "default") []
        (mkNetwork (T0 + 10 ^ 10) 1007 0 99 0) ].

Definition zero_summary : KubeletSummary :=
  mkSummary
    (mkSummaryNode (mkCPU time_zero 0) (mkMemory time_zero 0) (mkFS time_zero 0 0)
                   (mkNetwork time_zero 0 0 0 0))
    [].

Definition not_found : error :=
  external_error "the server could not find the requested resource (get nodes node-1)".

(** An environment around [snapshot], given the answers of the nodes. *)
Definition env_with (answers : Node -> string -> nat -> result string) : Env :=
  mkEnv snapshot T0 (mkBackOff (300 * 10 ^ 6) 5) false
    (T0 + 1) (fun _ => T0 + 2) answers
    (fun _ => Ok (JObject []))
    (fun bytes =>
       if decide (bytes = "summary-1") then Ok summary1
       else if decide (bytes = "summary-2") then Ok summary2
       else if decide (bytes = "{}") then Ok zero_summary
       else Err (external_error "unexpected end of JSON input"))
    (fun bytes =>
       if decide (bytes = "cadvisor-1") then
         Ok {[ "container_cpu_cfs_periods_total" :=
                 [ mkSample "uid-1" "web" float64_1000 true ] ]}
       else Ok ∅).

(** node-1 answers both documents; node-2 refuses every connection. *)
Definition env : Env :=
  env_with (fun node path _ =>
    if decide (Node_ID node = 1%N) then
      if decide (path = "stats/summary") then Ok "summary-1" else Ok "cadvisor-1"
    else Err (external_error "connection refused")).

(** The cycle after [env]: node-1 answers with its later summary. *)
Definition env_later : Env :=
  env_with (fun node path _ =>
    if decide (Node_ID node = 1%N) then
      if decide (path = "stats/summary") then Ok "summary-2" else Ok "cadvisor-1"
    else Err (external_error "connection refused")).

(** Neither document exists on the nodes. *)
Definition env_not_found : Env := env_with (fun _ _ _ => Err not_found).

(** A wrapped function that fails on every call. *)
Definition always_fails : State -> option error * State :=
  fun st => (Some (external_error "connection refused"), st).

Definition empty_state : State := mkState ∅ [] ∅ [] [].

End scrape_samples.

(** ** Properties of the 64-bit integers *)

Lemma wrap64_id z : in_int64 z -> wrap64 z = z.
Proof.
  unfold in_int64, int64_min, int64_max, wrap64. intros H.
  rewrite Z.mod_small; lia.
Qed.

Lemma wrap64_range z : in_int64 (wrap64 z).
Proof.
  unfold in_int64, int64_min, int64_max, wrap64.
  pose proof (Z.mod_pos_bound (z + 2 ^ 63) (2 ^ 64) ltac:(lia)). lia.
Qed.

(** ** Properties of package kuber *)

Section kuber_properties.
Import kuber.

Lemma maskContainers_map containers :
  maskContainers containers = map maskContainer containers.
Proof.
  unfold maskContainers.
  enough (forall acc, fold_left (fun masked c => masked ++ [maskContainer c]) containers acc
                      = acc ++ map maskContainer containers) as H by apply (H []).
  induction containers as [|c cs IH]; intros acc; simpl.
  - by rewrite app_nil_r.
  - rewrite IH. by rewrite <- app_assoc.
Qed.

Lemma maskContainer_masked c : containerMasked c (maskContainer c).
Proof.
  split; simpl.
  - unfold maskEnvVars. induction (Container_Env c) as [|e es IH]; simpl; constructor; auto.
    unfold envMasked, maskEnvVar. intros Hne. by destruct (decide _).
  - unfold maskArgs. induction (Container_Args c); simpl; constructor; auto.
Qed.

Lemma maskContainers_masked cs : Forall2 containerMasked cs (maskContainers cs).
Proof.
  rewrite maskContainers_map.
  induction cs; simpl; constructor; auto using maskContainer_masked.
Qed.

(** On the value it is given, [maskPodSpec] does mask every present
    environment value and every argument, init containers included. *)
Lemma maskPodSpec_masked podSpec : podSpecMasked podSpec (maskPodSpec podSpec).
Proof. split; simpl; apply maskContainers_masked. Qed.

(** [GetStatefulSet] returns the masked template. *)
Lemma GetStatefulSet_masked kube namespace name sts statefulSet :
  AppsV1_StatefulSets_Get kube namespace name = Ok (Some sts) ->
  GetStatefulSet kube namespace name = Ok (Some statefulSet) ->
  podSpecMasked (sts_Spec_Template_Spec sts) (sts_Spec_Template_Spec statefulSet).
Proof.
  unfold GetStatefulSet. intros -> [= <-]. apply maskPodSpec_masked.
Qed.

(** A [range] loop whose body only changes its iteration variable leaves
    the heap as it was. *)
Lemma range_copy_local {A} (f : A -> A) items h :
  range_copy (fun item h => Returns (f item, h)) items h = Returns h.
Proof. induction items; simpl; auto. Qed.

(** The list operations over templates held by value return the list the
    API server answered, element for element. *)
Lemma list_and_mask_workloads answer errmsg h items :
  answer = Ok (Some items) ->
  list_and_mask answer errmsg mask_workload_item h = Returns (Ok (Some items), h).
Proof.
  intros ->. unfold list_and_mask.
  change mask_workload_item with
    (fun item (h : Heap) =>
       Returns (mkWorkload (w_Namespace item) (w_Name item)
                           (maskPodSpec (w_Spec_Template_Spec item)), h)).
  by rewrite (range_copy_local (A := Workload)).
Qed.

(** The replication controller of the sample comes back masked: its
    template is reached through a pointer the list shares. *)
Example GetReplicationControllers_sample :
  exists items h,
    GetReplicationControllers samples.platform = Returns (Ok (Some items), h) /\
    rc_podSpecs items h = [ Some (maskPodSpec samples.secret_podSpec) ].
Proof. eexists _, _. split; [reflexivity|]. vm_compute. reflexivity. Qed.

(** C1 (fails on the code). [GetDeployments] runs [maskPodSpec] on the
    iteration variable of its [range] loop, a copy of the list element:
    the list it returns still holds the environment value and the
    argument it was given, so the returned pod spec is not masked. *)
Theorem GetDeployments_returns_secrets :
  GetDeployments samples.platform
    = Returns (Ok (Some [ samples.web_deployment ]), platform_heap samples.platform) /\
  workload_podSpecs [ samples.web_deployment ] = [ samples.secret_podSpec ] /\
  ~ podSpecMasked samples.secret_podSpec samples.secret_podSpec.
Proof.
  split; [|split].
  - by apply list_and_mask_workloads.
  - reflexivity.
  - intros [Hc _]. simpl in Hc.
    apply Forall2_cons_1 in Hc as [[Henv _] _]. simpl in Henv.
    apply Forall2_cons_1 in Henv as [Henv _].
    unfold envMasked in Henv. simpl in Henv.
    discriminate Henv. discriminate.
Qed.

(** The guard reads only the replicas and the update strategy, which
    masking leaves alone. *)
Lemma statefulSet_guard_skips sts replicas :
  sts_Spec_Replicas sts = Some replicas ->
  replicas > 1 ->
  UpdateStrategy_Type (sts_Spec_UpdateStrategy sts) <> RollingUpdateStatefulSetStrategyType
  \/ (exists rollingUpdate partition,
        RollingUpdate (sts_Spec_UpdateStrategy sts) = Some rollingUpdate /\
        Partition rollingUpdate = Some partition /\ partition <> 0) ->
  exists reason, statefulSet_guard sts = Some reason.
Proof.
  intros Hr Hgt Hs. unfold statefulSet_guard. rewrite Hr.
  destruct (decide (replicas > 1)); [|lia].
  destruct (decide (_ = RollingUpdateStatefulSetStrategyType)) as [Heq|Hne]; [|eauto].
  destruct Hs as [Hs|(ru & p & -> & -> & Hp)]; [done|].
  destruct (decide (p <> 0)); [eauto|done].
Qed.

(** C10 (as stated, fails). A call that carries nothing to change is
    rejected before the stateful set is looked at: on a StatefulSet with
    three replicas and the OnDelete strategy it returns [skipped = false]
    with the "nothing to change" error (and sends no patch). *)
Lemma SetResources_empty_decision_not_skipped :
  AppsV1_StatefulSets_Get samples.platform "default" "db"
    = Ok (Some (samples.db_statefulSet "OnDelete")) /\
  sts_Spec_Replicas (samples.db_statefulSet "OnDelete") = Some 3 /\
  3 > 1 /\
  UpdateStrategy_Type (sts_Spec_UpdateStrategy (samples.db_statefulSet "OnDelete"))
    <> RollingUpdateStatefulSetStrategyType /\
  SetResources samples.platform "StatefulSet" "db" "default" (mkTotalResources None [])
    = Returns ((false, Some (fmt_Errorf "invalid resources passed, nothing to change")), []).
Proof. repeat split; try reflexivity; try lia. discriminate. Qed.

(** C10 (amended). A [SetResources] call that carries something to change
    (a container or a replica count), for a kind that lower-cases to
    statefulset, whose fetched stateful set has more than one replica: if
    the update strategy is not RollingUpdate, or the rolling update has a
    partition that is set and not zero, the call returns [skipped = true]
    with a reason, and no patch request is sent. *)
Theorem SetResources_statefulset_guard
    kube kind name namespace totalResources sts replicas :
  ~ (length (tr_Containers totalResources) = 0%nat /\ Replicas totalResources = None) ->
  strings_ToLower kind = "statefulset" ->
  AppsV1_StatefulSets_Get kube namespace name = Ok (Some sts) ->
  sts_Spec_Replicas sts = Some replicas ->
  replicas > 1 ->
  UpdateStrategy_Type (sts_Spec_UpdateStrategy sts) <> RollingUpdateStatefulSetStrategyType
  \/ (exists rollingUpdate partition,
        RollingUpdate (sts_Spec_UpdateStrategy sts) = Some rollingUpdate /\
        Partition rollingUpdate = Some partition /\ partition <> 0) ->
  exists reason,
    SetResources kube kind name namespace totalResources
      = Returns ((true, Some reason), []).
Proof.
  intros Hvalid Hkind Hget Hr Hgt Hs. unfold SetResources.
  destruct (decide (_ /\ _)) as [|_]; [done|].
  destruct (decide (strings_ToLower kind = "statefulset")); [|done].
  unfold GetStatefulSet. rewrite Hget.
  edestruct (statefulSet_guard_skips
               (mkStatefulSet (sts_Namespace sts) (sts_Name sts) (sts_Spec_Replicas sts)
                  (sts_Spec_UpdateStrategy sts) (maskPodSpec (sts_Spec_Template_Spec sts))))
    as [reason Hreason]; [exact Hr|exact Hgt|exact Hs|].
  rewrite Hreason. eauto.
Qed.

Lemma SetResources_statefulset_guard_witness :
  exists reason,
    SetResources samples.platform "StatefulSet" "db" "default"
                 (mkTotalResources (Some 3) [])
      = Returns ((true, Some reason), []).
Proof.
  apply (SetResources_statefulset_guard samples.platform "StatefulSet" "db" "default"
           (mkTotalResources (Some 3) []) (samples.db_statefulSet "OnDelete") 3).
  - simpl. intros [_ H]. discriminate H.
  - reflexivity.
  - reflexivity.
  - reflexivity.
  - lia.
  - left. simpl. discriminate.
Defined.

End kuber_properties.

(** ** Properties of package metrics: the rate table *)

Section rate_properties.
Import metrics.

Lemma quot_in_int64 a d : in_int64 a -> 0 < d -> in_int64 (Z.quot a d).
Proof.
  unfold in_int64, int64_min, int64_max. intros Ha Hd.
  destruct (Z.le_gt_cases 0 a) as [Hpos|Hneg].
  - pose proof (Z.quot_pos a d Hpos Hd).
    pose proof (Z.quot_le_upper_bound a d a Hd ltac:(nia)). lia.
  - pose proof (Z.quot_opp_l a d ltac:(lia)) as Hopp.
    pose proof (Z.quot_pos (- a) d ltac:(lia) Hd).
    pose proof (Z.quot_le_upper_bound (- a) d (- a) Hd ltac:(nia)). lia.
Qed.

Lemma one_second_positive : 0 < time_Second.
Proof. reflexivity. Qed.

(** For times [UnixNano] can represent, whose difference fits in an
    [int64], the duration [calcRate] computes is their difference. *)
Lemma elapsed_exact t1 t0 :
  in_int64 t1 -> in_int64 t0 -> in_int64 (t1 - t0) -> elapsed t1 t0 = t1 - t0.
Proof.
  intros H1 H0 Hd. unfold elapsed, sub64, Time_UnixNano.
  by rewrite (wrap64_id t1), (wrap64_id t0), wrap64_id.
Qed.

(** C4. With a stored point [(t0, v0)], a new point [(t1, v1)] more than
    one second later and [v1 < v0], [calcRate] takes the previous value
    to be 0: the rate is [multiplier * v1 / (t1 - t0)] in [int64]
    arithmetic, and it is the exact truncated quotient whenever the
    product fits in an [int64]. *)
Theorem calcRate_reset st key t0 v0 t1 v1 multiplier :
  previous st !! key = Some (mkKubeletValue t0 v0) ->
  in_int64 v1 ->
  elapsed t1 t0 > time_Second ->
  v1 < v0 ->
  calcRate st key t1 v1 multiplier
    = Ok (quot64 (mul64 multiplier v1) (elapsed t1 t0))
  /\ (in_int64 (multiplier * v1) ->
      calcRate st key t1 v1 multiplier
        = Ok (Z.quot (multiplier * v1) (elapsed t1 t0))).
Proof.
  intros Hprev Hv1 Hdt Hlt.
  assert (calcRate st key t1 v1 multiplier
          = Ok (quot64 (mul64 multiplier v1) (elapsed t1 t0))) as Hrate.
  { unfold calcRate, getPreviousValue. rewrite Hprev. simpl.
    fold (elapsed t1 t0).
    destruct (decide (elapsed t1 t0 <= time_Second)); [lia|].
    destruct (decide (v0 > v1)); [|lia].
    unfold sub64. rewrite Z.sub_0_r, (wrap64_id v1) by done. reflexivity. }
  split; [exact Hrate|].
  intros Hfit. rewrite Hrate. f_equal.
  unfold quot64, mul64. rewrite (wrap64_id (multiplier * v1)) by done.
  apply wrap64_id, quot_in_int64; [done|].
  pose proof one_second_positive. lia.
Qed.

(** The counter-reset scenario of the specification: 10^9 at T, 10^6 one
    and a half seconds later, multiplier 1000. *)
Lemma calcRate_reset_witness :
  calcRate (mkState {[ "k" := mkKubeletValue 0 (10 ^ 9) ]} [] ∅ [] [])
           "k" (2 * 10 ^ 9) (10 ^ 6) 1000
    = Ok (quot64 (mul64 1000 (10 ^ 6)) (elapsed (2 * 10 ^ 9) 0))
  /\ (in_int64 (1000 * 10 ^ 6) ->
      calcRate (mkState {[ "k" := mkKubeletValue 0 (10 ^ 9) ]} [] ∅ [] [])
               "k" (2 * 10 ^ 9) (10 ^ 6) 1000
        = Ok (Z.quot (1000 * 10 ^ 6) (elapsed (2 * 10 ^ 9) 0))).
Proof.
  apply (calcRate_reset _ "k" 0 (10 ^ 9) (2 * 10 ^ 9) (10 ^ 6) 1000).
  - reflexivity.
  - unfold in_int64, int64_min, int64_max. lia.
  - vm_compute. reflexivity.
  - lia.
Defined.

Lemma calcRate_fails st key timestamp value multiplier :
  rate_fails st key timestamp ->
  exists err, calcRate st key timestamp value multiplier = Err err.
Proof.
  unfold calcRate, getPreviousValue.
  intros [->|(point & -> & Hle)]; [eauto|]. simpl.
  fold (elapsed timestamp (kv_Timestamp point)).
  destruct (decide (_ <= time_Second)); [eauto|lia].
Qed.

(** C5. [addMetricValueRate] stores the new point under the key in every
    case; when the rate computation fails for the key, it appends no
    record to the batch. *)
Theorem addMetricValueRate_failure_stores
    env measurementType parentKey entityKey measurement
    nodeID applicationID serviceID containerID pod timestamp value multiplier st :
  let key := getKey measurementType parentKey entityKey measurement in
  let st' :=
    addMetricValueRate env measurementType parentKey entityKey measurement nodeID
      applicationID serviceID containerID pod timestamp value multiplier st in
  previous st' = <[key := mkKubeletValue (effective env timestamp) value]> (previous st)
  /\ (rate_fails st key (effective env timestamp) -> metrics_ st' = metrics_ st).
Proof.
  intros key st'. subst st'. unfold addMetricValueRate.
  fold (effective env timestamp). fold key.
  split.
  - by destruct (calcRate st key (effective env timestamp) value multiplier).
  - intros Hfail.
    by destruct (calcRate_fails st key (effective env timestamp) value multiplier Hfail)
      as [err ->].
Qed.

(** A first sample for a key: nothing is emitted, the sample is kept. *)
Lemma addMetricValueRate_failure_stores_witness :
  rate_fails (mkState ∅ [] ∅ [] []) (getKey TypeNode "" "n1" "cpu/usage_rate")
             (effective scrape_samples.env 5)
  /\ metrics_ (addMetricValueRate scrape_samples.env TypeNode "" "n1" "cpu/usage_rate"
                 1%N uuid_Nil uuid_Nil uuid_Nil "" 5 42 1000 scrape_samples.empty_state)
     = []
  /\ previous (addMetricValueRate scrape_samples.env TypeNode "" "n1" "cpu/usage_rate"
                 1%N uuid_Nil uuid_Nil uuid_Nil "" 5 42 1000 (mkState ∅ [] ∅ [] []))
     = <[getKey TypeNode "" "n1" "cpu/usage_rate" := mkKubeletValue 5 42]> ∅.
Proof.
  assert (rate_fails (mkState ∅ [] ∅ [] []) (getKey TypeNode "" "n1" "cpu/usage_rate")
                     (effective scrape_samples.env 5)) as Hfail by (left; reflexivity).
  destruct (addMetricValueRate_failure_stores scrape_samples.env TypeNode "" "n1"
              "cpu/usage_rate" 1%N uuid_Nil uuid_Nil uuid_Nil "" 5 42 1000
              (mkState ∅ [] ∅ [] [])) as [Hstore Hkeep].
  split; [exact Hfail|]. split; [exact (Hkeep Hfail)|exact Hstore].
Defined.

End rate_properties.

(** ** Properties of package metrics: retry with backoff *)

Section backoff_properties.
Import metrics.
Context {S : Type} `{Sleeper S}.
Variable bo : backOff.
Variable fn : S -> option error * S.

(** A run of the loop that starts after [t] attempts. If it ends, it has
    invoked the function [k >= 1] more times, slept after each of them
    but the last, and retried only while the attempt number was within
    [maxRetries]; an error means the last attempt number exceeded it. *)
Lemma withBackoff_loop_probed fuel : forall (t : nat) (p p' : Probe S) r,
  withBackoff_loop fuel bo (probed fn) (Z.of_nat t) p = (r, p') ->
  match r with
  | None => fuel = O \/ Z.of_nat (t + fuel) <= maxRetries bo
  | Some err =>
      exists k, (1 <= k)%nat /\
        probe_calls p' = (probe_calls p + k)%nat /\
        probe_slept p' = probe_slept p ++ map (backoff_sleep bo) (seq (Datatypes.S t) (k - 1)) /\
        ((2 <= k)%nat -> Z.of_nat (t + k - 1) <= maxRetries bo) /\
        (err <> None -> Z.of_nat (t + k) > maxRetries bo)
  end.
Proof.
  induction fuel as [|fuel IH]; intros t p p' r Hrun; simpl in Hrun.
  - injection Hrun as <- <-. by left.
  - unfold probed at 1 in Hrun.
    destruct (fn (probe_state p)) as [[err|] s1] eqn:Hfn.
    + destruct (decide (Z.of_nat t + 1 > maxRetries bo)) as [Hgt|Hle].
      * injection Hrun as <- <-. exists 1%nat. simpl.
        repeat split; try lia. by rewrite app_nil_r.
      * replace (Z.of_nat t + 1) with (Z.of_nat (Datatypes.S t)) in Hrun by lia.
        apply IH in Hrun. destruct r as [err'|].
        -- destruct Hrun as (k & Hk & Hcalls & Hslept & Hretry & Herr).
           exists (Datatypes.S k). simpl in Hcalls, Hslept.
           repeat split; try lia.
           ++ rewrite Hslept, <- app_assoc. f_equal.
              destruct k as [|k]; [lia|]. simpl. rewrite Nat.sub_0_r. f_equal.
              unfold backoff_sleep. f_equal. f_equal.
              apply Z.rem_mod_nonneg; lia.
           ++ intros Hne. specialize (Herr Hne). lia.
        -- right. destruct Hrun as [->|Hrun]; lia.
    + injection Hrun as <- <-. exists 1%nat. simpl.
      repeat split; try lia; try done. by rewrite app_nil_r.
Qed.

(** The fuel of [withBackoff] is never used up. *)
Lemma withBackoff_loop_returns (p : Probe S) :
  exists err p',
    withBackoff_loop (withBackoff_fuel bo) bo (probed fn) 0 p = (Some err, p').
Proof.
  destruct (withBackoff_loop (withBackoff_fuel bo) bo (probed fn) 0 p)
    as [[err|] p'] eqn:Hrun; [eauto|].
  apply (withBackoff_loop_probed _ O) in Hrun.
  unfold withBackoff_fuel in *. destruct Hrun as [Hrun|Hrun]; [done|]. lia.
Qed.

(** Counting the invocations does not change the run. *)
Lemma withBackoff_loop_erase fuel : forall try (p : Probe S),
  let '(r, p') := withBackoff_loop fuel bo (probed fn) try p in
  withBackoff_loop fuel bo fn try (probe_state p) = (r, probe_state p').
Proof.
  induction fuel as [|fuel IH]; intros try p; simpl; [done|].
  unfold probed at 1. destruct (fn (probe_state p)) as [[err|] s1]; [|done].
  destruct (decide (try + 1 > maxRetries bo)); [done|]. apply IH.
Qed.

(** C6 (amended). [withBackoff] invokes the wrapped function at least
    once and at most [maxRetries + 1] times (the first attempt and
    [maxRetries] retries); when it returns an error it has invoked it
    exactly that many times; and the sleep that follows the failed attempt
    number [try] is [sleep * (((try - 1) mod 10) + 1)]. *)
Theorem withBackoff_attempts (s : S) :
  let '(err, p) := withBackoff bo (probed fn) (probe_start s) in
  (1 <= probe_calls p <= Z.to_nat (maxRetries bo) + 1)%nat /\
  probe_slept p = map (backoff_sleep bo) (seq 1 (probe_calls p - 1)) /\
  (err <> None -> probe_calls p = (Z.to_nat (maxRetries bo) + 1)%nat).
Proof.
  unfold withBackoff.
  destruct (withBackoff_loop_returns (probe_start s)) as (err & p' & Hrun).
  rewrite Hrun. apply (withBackoff_loop_probed _ O) in Hrun.
  destruct Hrun as (k & Hk & Hcalls & Hslept & Hretry & Herr).
  simpl in Hcalls, Hslept, Hretry, Herr.
  assert (k <= Z.to_nat (maxRetries bo) + 1)%nat as Hbound.
  { destruct (decide (2 <= k)%nat) as [H2|H2]; [specialize (Hretry H2)|]; lia. }
  rewrite Hcalls, Hslept. split; [lia|]. split; [done|].
  intros Hne. specialize (Herr Hne). lia.
Qed.

End backoff_properties.

Section backoff_examples.
Import metrics.

(** C6 (as stated, fails). With the default [maxRetries = 5] and a
    function that fails on every call, [withBackoff] returns an error
    after invoking the function six times, not five. *)
Lemma withBackoff_default_invokes_six_times :
  let '(err, p) :=
    withBackoff (mkBackOff (300 * 10 ^ 6) 5) (probed scrape_samples.always_fails)
                (probe_start scrape_samples.empty_state) in
  err <> None /\ probe_calls p = 6%nat /\ ~ (probe_calls p <= 5)%nat.
Proof. vm_compute. repeat split; [discriminate|lia]. Qed.

End backoff_examples.

(** ** Properties of package metrics: containers reported twice *)

Section dedup_properties.
Import metrics.

Lemma dedup_step_inv m seen c :
  dedup_inv m seen -> dedup_inv (dedup_step m c) (seen ++ [c]).
Proof.
  intros [Hkeys Hcover]. unfold dedup_step.
  destruct (m !! ksc_Name c) as [found|] eqn:Hfound.
  - unfold Time_After. case_bool_decide as Hafter.
    + split.
      * intros k v. rewrite lookup_insert. case_decide as Hk.
        -- intros [= <-]. split; [done|].
           apply elem_of_app. right. by apply list_elem_of_singleton.
        -- intros Hv. destruct (Hkeys k v Hv). split; [done|].
           apply elem_of_app. by left.
      * intros c' [Hin|Hin%list_elem_of_singleton]%elem_of_app.
        -- destruct (Hcover c' Hin) as (v & Hv & Hle).
           destruct (decide (ksc_Name c = ksc_Name c')) as [Heq|Hne].
           ++ exists c. rewrite <- Heq, lookup_insert_eq. split; [done|].
              rewrite <- Heq, Hfound in Hv. injection Hv as <-. lia.
           ++ exists v. by rewrite lookup_insert_ne.
        -- subst c'. exists c. rewrite lookup_insert_eq. split; [done|lia].
    + split.
      * intros k v Hv. destruct (Hkeys k v Hv). split; [done|].
           apply elem_of_app. by left.
      * intros c' [Hin|Hin%list_elem_of_singleton]%elem_of_app; [by apply Hcover|].
        subst c'. exists found. split; [done|lia].
  - split.
    + intros k v. rewrite lookup_insert. case_decide as Hk.
      * intros [= <-]. split; [done|].
           apply elem_of_app. right. by apply list_elem_of_singleton.
      * intros Hv. destruct (Hkeys k v Hv). split; [done|].
           apply elem_of_app. by left.
    + intros c' [Hin|Hin%list_elem_of_singleton]%elem_of_app.
      * destruct (Hcover c' Hin) as (v & Hv & Hle).
        exists v. rewrite lookup_insert_ne; [done|]. congruence.
      * subst c'. exists c. rewrite lookup_insert_eq. split; [done|lia].
Qed.

Lemma dedup_fold_inv containers : forall m seen,
  dedup_inv m seen ->
  dedup_inv (fold_left dedup_step containers m) (seen ++ containers).
Proof.
  induction containers as [|c cs IH]; intros m seen Hinv; simpl.
  - by rewrite app_nil_r.
  - replace (seen ++ c :: cs) with ((seen ++ [c]) ++ cs) by by rewrite <- app_assoc.
    by apply IH, dedup_step_inv.
Qed.

Lemma podContainers_of_inv containers :
  dedup_inv (podContainers_of containers) containers.
Proof.
  apply (dedup_fold_inv containers ∅ []). split; [|set_solver].
  intros k v. by rewrite lookup_empty.
Qed.

Lemma filter_none {A} (P : A -> Prop) `{!forall x, Decision (P x)} (l : list A) :
  (forall y, y ∈ l -> ~ P y) -> filter P l = [].
Proof.
  induction l as [|a l IH]; intros Hnone; [done|].
  rewrite filter_cons. destruct (decide (P a)) as [HPa|_].
  - exfalso. apply (Hnone a); [apply list_elem_of_here|done].
  - apply IH. intros y Hy. apply Hnone. by apply list_elem_of_further.
Qed.

(** In a list without repetition, a property that singles out one element
    filters the list down to it. *)
Lemma filter_single {A} (P : A -> Prop) `{!forall x, Decision (P x)} (l : list A) x :
  NoDup l -> x ∈ l -> P x -> (forall y, y ∈ l -> P y -> y = x) ->
  filter P l = [x].
Proof.
  induction l as [|a l IH]; intros Hnd Hin HP Huniq; [set_solver|].
  apply NoDup_cons in Hnd as [Hnotin Hnd].
  rewrite filter_cons. destruct (decide (P a)) as [HPa|HPa].
  - assert (a = x) as -> by (apply Huniq; [apply list_elem_of_here|done]).
    f_equal. apply filter_none. intros y Hy HPy.
    assert (y = x) by (apply Huniq; [by apply list_elem_of_further|done]). by subst.
  - apply IH; try done.
    + apply elem_of_cons in Hin as [->|]; done.
    + intros y Hy. apply Huniq. by apply list_elem_of_further.
Qed.

Lemma names_are_keys (m : gmap string KubeletSummaryContainer) :
  (forall k v, m !! k = Some v -> ksc_Name v = k) ->
  ksc_Name <$> (map_to_list m).*2 = (map_to_list m).*1.
Proof.
  intros Hkeys.
  assert (Forall (fun kv => ksc_Name kv.2 = kv.1) (map_to_list m)) as Hall.
  { apply Forall_forall. intros [k v] Hkv%elem_of_map_to_list. by apply Hkeys. }
  induction (map_to_list m) as [|[k v] l IH]; [done|].
  apply Forall_cons in Hall as [Hkv Hall]. simpl in Hkv.
  rewrite !fmap_cons. simpl. rewrite Hkv. f_equal. by apply IH.
Qed.

(** C8. Of the containers a pod reports under one name, exactly one
    reaches the emission loop, and none of them started later than it. *)
Theorem duplicate_containers_latest_kept pod name :
  (exists c, c ∈ pod_Containers pod /\ ksc_Name c = name) ->
  exists kept,
    filter (fun c => ksc_Name c = name) (emitted_containers pod) = [kept] /\
    kept ∈ pod_Containers pod /\
    ksc_Name kept = name /\
    forall c, c ∈ pod_Containers pod -> ksc_Name c = name ->
              StartTime c <= StartTime kept.
Proof.
  intros (c0 & Hc0 & Hname).
  destruct (podContainers_of_inv (pod_Containers pod)) as [Hkeys Hcover].
  destruct (Hcover c0 Hc0) as (kept & Hkept & _). rewrite Hname in Hkept.
  destruct (Hkeys name kept Hkept) as [Hkname Hkin].
  assert (NoDup (ksc_Name <$> emitted_containers pod)) as Hnd.
  { unfold emitted_containers. rewrite names_are_keys by (intros k v Hv; by apply Hkeys).
    apply NoDup_fst_map_to_list. }
  exists kept. repeat split; try done.
  - apply filter_single; try done.
    + by apply NoDup_fmap_1 in Hnd.
    + unfold emitted_containers. apply list_elem_of_fmap.
      exists (name, kept). split; [done|]. by apply elem_of_map_to_list.
    + intros y Hy Hyname. unfold emitted_containers in Hy.
      apply list_elem_of_fmap in Hy as ([k v] & -> & Hkv%elem_of_map_to_list).
      simpl in *. destruct (Hkeys k v Hkv) as [Hvk _]. congruence.
  - intros c Hc Hcname. destruct (Hcover c Hc) as (v & Hv & Hle).
    rewrite Hcname, Hkept in Hv. injection Hv as <-. lia.
Qed.

(** The pod of the sample reports web twice; the later start is kept. *)
Lemma duplicate_containers_latest_kept_witness :
  exists kept,
    filter (fun c => ksc_Name c = "web")
           (emitted_containers (mkSummaryPod (mkPodRef "web-1" "default")
              [ scrape_samples.web_stats 100 111; scrape_samples.web_stats 105 222 ]
              (mkNetwork 0 0 0 0 0))) = [kept] /\
    kept ∈ [ scrape_samples.web_stats 100 111; scrape_samples.web_stats 105 222 ] /\
    ksc_Name kept = "web" /\
    forall c, c ∈ [ scrape_samples.web_stats 100 111; scrape_samples.web_stats 105 222 ] ->
              ksc_Name c = "web" -> StartTime c <= StartTime kept.
Proof.
  apply (duplicate_containers_latest_kept
           (mkSummaryPod (mkPodRef "web-1" "default")
              [ scrape_samples.web_stats 100 111; scrape_samples.web_stats 105 222 ]
              (mkNetwork 0 0 0 0 0)) "web").
  exists (scrape_samples.web_stats 100 111). split; [|reflexivity].
  simpl. apply list_elem_of_here.
Defined.

End dedup_properties.

(** ** Properties of package metrics: a document the node does not have *)

Section not_found_properties.
Import metrics.

Lemma fetch_not_found env node path empty errmsg st bytes err :
  GetBytes env node path (calls_so_far node path st) = Err err ->
  strings_Contains (Error err) not_found_message = true ->
  fetch env node path empty errmsg (st, bytes)
    = (None, (record_request node path st, empty)).
Proof.
  intros Hget Hcontains. unfold fetch, call_GetBytes. by rewrite Hget, Hcontains.
Qed.

(** An attempt that succeeds ends the loop on the spot. *)
Lemma withBackoff_loop_success {S} `{Sleeper S} fuel bo
    (fn : S -> option error * S) try s s' :
  fn s = (None, s') ->
  withBackoff_loop (Datatypes.S fuel) bo fn try s = (Some None, s').
Proof. intros Hfn. simpl. by rewrite Hfn. Qed.

Lemma withBackoff_success {S} `{Sleeper S} bo (fn : S -> option error * S) s s' :
  fn s = (None, s') -> withBackoff bo fn s = (None, s').
Proof.
  intros Hfn. unfold withBackoff, withBackoff_fuel.
  by rewrite (withBackoff_loop_success _ _ _ _ _ _ Hfn).
Qed.

(** C7. When the node answers the fetch of its summary with an error whose
    message contains "the server could not find the requested resource",
    that attempt, whichever it is, ends the retry loop without an error
    and without a sleep, with the document [{}] and one more request on
    record, and the task goes on with that document; the same holds for
    the exposition document, with the empty payload. *)
Theorem not_found_is_tolerated env node st err :
  strings_Contains (Error err) not_found_message = true ->
  (GetBytes env node "stats/summary" (calls_so_far node "stats/summary" st) = Err err ->
     (forall fuel try bytes,
        withBackoff_loop (Datatypes.S fuel) (timeouts_backoff env)
                         (fetch_summary env node) try (st, bytes)
          = (Some None, (record_request node "stats/summary" st, "{}")))
     /\ node_task env node st
        = process_summary env node "{}" (record_request node "stats/summary" st))
  /\ (GetBytes env node "metrics/cadvisor" (calls_so_far node "metrics/cadvisor" st) = Err err ->
       (forall fuel try bytes,
          withBackoff_loop (Datatypes.S fuel) (timeouts_backoff env)
                           (fetch_cadvisor env node) try (st, bytes)
            = (Some None, (record_request node "metrics/cadvisor" st, "")))
       /\ forall summary throttleMetrics,
            scrape_cadvisor env node summary throttleMetrics st
              = process_cadvisor env node summary throttleMetrics ""
                                 (record_request node "metrics/cadvisor" st)).
Proof.
  intros Hcontains. split; intros Hget.
  - split.
    + intros fuel try bytes. apply withBackoff_loop_success.
      by apply fetch_not_found with (err := err).
    + unfold node_task, fetch_summary.
      by rewrite (withBackoff_success _ _ _ _
                    (fetch_not_found env node _ "{}" _ st "" err Hget Hcontains)).
  - split.
    + intros fuel try bytes. apply withBackoff_loop_success.
      by apply fetch_not_found with (err := err).
    + intros summary throttleMetrics. unfold scrape_cadvisor, fetch_cadvisor.
      by rewrite (withBackoff_success _ _ _ _
                    (fetch_not_found env node _ "" _ st "" err Hget Hcontains)).
Qed.

(** On nodes that have neither document, the task of node-1 goes on
    with [{}] after one request, then with the empty payload. *)
Lemma not_found_is_tolerated_witness :
  node_task scrape_samples.env_not_found scrape_samples.node1 scrape_samples.empty_state
    = process_summary scrape_samples.env_not_found scrape_samples.node1 "{}"
        (record_request scrape_samples.node1 "stats/summary" scrape_samples.empty_state)
  /\ forall summary throttleMetrics,
       scrape_cadvisor scrape_samples.env_not_found scrape_samples.node1 summary
                       throttleMetrics scrape_samples.empty_state
         = process_cadvisor scrape_samples.env_not_found scrape_samples.node1 summary
             throttleMetrics ""
             (record_request scrape_samples.node1 "metrics/cadvisor"
                             scrape_samples.empty_state).
Proof.
  destruct (not_found_is_tolerated scrape_samples.env_not_found scrape_samples.node1
              scrape_samples.empty_state scrape_samples.not_found)
    as [Hsummary Hcadvisor]; [reflexivity|].
  split.
  - apply Hsummary. reflexivity.
  - apply Hcadvisor. reflexivity.
Defined.

End not_found_properties.

(** ** Properties of package metrics: the network counters of a pod *)

Section pod_network_properties.
Import metrics.

(** C9 (fails on the code). The pod of the sample has received 7 bytes
    and sent 99; ten seconds later it has received 1007 and sent 99. The
    pod-scope [network/rx] record of the first cycle carries 99, and the
    [network/rx_rate] record of the second cycle carries 0: both follow
    the sent-bytes counter, where the received-bytes counter gives 7 and
    100 bytes per second. *)
Theorem pod_network_rx_follows_TxBytes :
  let first := GetMetrics scrape_samples.env ∅ in
  let second := GetMetrics scrape_samples.env_later (previous first.2) in
  (RxBytes <$> (pod_Network <$> summary_Pods scrape_samples.summary1) = [7]
   /\ TxBytes <$> (pod_Network <$> summary_Pods scrape_samples.summary1) = [99])
  /\ (RxBytes <$> (pod_Network <$> summary_Pods scrape_samples.summary2) = [1007]
      /\ TxBytes <$> (pod_Network <$> summary_Pods scrape_samples.summary2) = [99])
  /\ Value <$> filter (fun m => Type_ m = TypePod /\ Name m = "network/rx") first.1.1.1
     = [99]
  /\ Value <$> filter (fun m => Type_ m = TypePod /\ Name m = "network/rx_rate") second.1.1.1
     = [0]
  /\ Value <$> filter (fun m => Type_ m = TypeNode /\ Name m = "network/rx") first.1.1.1
     = [11].
Proof. vm_compute. repeat split. Qed.

End pod_network_properties.

(** ** Properties of package metrics: the shape of a cycle *)

Section cycle_properties.
Import metrics.

(** The tasks of a node list, run in two halves. *)
Lemma run_tasks_from env nodes : forall errs st,
  fold_left
    (fun '(errs, st) node =>
       let '(err, st) := node_task env node st in (errs ++ [err], st))
    nodes (errs, st)
  = (errs ++ (run_tasks env nodes st).1, (run_tasks env nodes st).2).
Proof.
  unfold run_tasks. induction nodes as [|node nodes IH]; intros errs st; simpl.
  - by rewrite app_nil_r.
  - destruct (node_task env node st) as [err st'].
    rewrite IH, (IH [err]). simpl. by rewrite <- app_assoc.
Qed.

Lemma run_tasks_cons env node nodes st :
  run_tasks env (node :: nodes) st
  = ((node_task env node st).1 :: (run_tasks env nodes (node_task env node st).2).1,
     (run_tasks env nodes (node_task env node st).2).2).
Proof.
  unfold run_tasks at 1. simpl. destruct (node_task env node st) as [err st'].
  simpl. apply (run_tasks_from env nodes [err] st').
Qed.

Lemma run_tasks_app env done rest st :
  run_tasks env (done ++ rest) st
  = ((run_tasks env done st).1 ++ (run_tasks env rest (run_tasks env done st).2).1,
     (run_tasks env rest (run_tasks env done st).2).2).
Proof.
  unfold run_tasks at 1. rewrite fold_left_app.
  fold (run_tasks env done st).
  destruct (run_tasks env done st) as [errs st']. simpl.
  apply run_tasks_from.
Qed.

Lemma copy_batch {A} (l : list A) :
  fold_left (fun result x => result ++ [x]) l [] = l.
Proof.
  enough (forall acc, fold_left (fun result x => result ++ [x]) l acc = acc ++ l)
    as Hgen by apply (Hgen []).
  induction l as [|x l IH]; intros acc; simpl; [by rewrite app_nil_r|].
  by rewrite IH, <- app_assoc.
Qed.

(** What [GetMetrics] returns: the batch left by the tasks, and no error. *)
Lemma GetMetrics_returns env previous :
  (GetMetrics env previous).1
  = (metrics_ (run_tasks env (GetNodes (scanner env)) (before_tasks env previous)).2,
     (if optInAnalysisData env
      then Some (rawResponses
                   (run_tasks env (GetNodes (scanner env)) (before_tasks env previous)).2)
      else None),
     None).
Proof.
  unfold GetMetrics.
  destruct (run_tasks env (GetNodes (scanner env)) (before_tasks env previous))
    as [errs st]. simpl. by rewrite copy_batch.
Qed.

End cycle_properties.

(** ** Properties of package metrics: what a cycle appends to the batch *)

Section batch_properties.
Import metrics.
Variable Q : string -> UUID -> UUID -> UUID -> UUID -> Prop.
Variable env : Env.

Lemma appends_refl st : appends Q st st.
Proof. exists []. by rewrite app_nil_r. Qed.

Lemma appends_trans st1 st2 st3 :
  appends Q st1 st2 -> appends Q st2 st3 -> appends Q st1 st3.
Proof.
  intros (s1 & H1 & Hs1) (s2 & H2 & Hs2). exists (s1 ++ s2).
  rewrite H2, H1, app_assoc. split; [done|]. by apply Forall_app.
Qed.

Lemma appends_same st st' : metrics_ st' = metrics_ st -> appends Q st st'.
Proof. intros Heq. exists []. by rewrite app_nil_r. Qed.

Lemma appends_one st m : on_ids Q m -> appends Q st (append_metric m st).
Proof. intros Hm. exists [m]. split; [done|]. by constructor. Qed.

(** A loop that appends at every iteration appends as a whole. *)
Lemma fold_left_appends {A} (f : State -> A -> State) (l : list A) : forall st,
  (forall st x, x ∈ l -> appends Q st (f st x)) ->
  appends Q st (fold_left f l st).
Proof.
  induction l as [|x l IH]; intros st Hf; simpl; [apply appends_refl|].
  eapply appends_trans.
  - apply Hf, list_elem_of_here.
  - apply IH. intros st' y Hy. apply Hf. by apply list_elem_of_further.
Qed.

Lemma addMetricValue_appends type name n a s c pod ts v st :
  Q type n a s c ->
  appends Q st (addMetricValue env type name n a s c pod ts v st).
Proof. intros HQ. by apply appends_one. Qed.

Lemma addMetricValueWithTags_appends type name n a s c pod ts v tags st :
  Q type n a s c ->
  appends Q st (addMetricValueWithTags type name n a s c pod ts v tags st).
Proof. intros HQ. by apply appends_one. Qed.

Lemma addMetricValueRate_appends type parent entity name n a s c pod ts v mul st :
  Q type n a s c ->
  appends Q st (addMetricValueRate env type parent entity name n a s c pod ts v mul st).
Proof.
  intros HQ. unfold addMetricValueRate.
  destruct (calcRate st _ _ v mul).
  - eapply appends_trans; [|by apply addMetricValue_appends].
    by apply appends_same.
  - by apply appends_same.
Qed.

Lemma add_values_appends type n a s c pod rows st :
  Q type n a s c -> appends Q st (add_values env type n a s c pod rows st).
Proof.
  intros HQ. apply fold_left_appends. intros st' [[name ts] v] _.
  by apply addMetricValue_appends.
Qed.

Lemma add_rates_appends type parent entity n a s c pod rows st :
  Q type n a s c ->
  appends Q st (add_rates env type parent entity n a s c pod rows st).
Proof.
  intros HQ. apply fold_left_appends. intros st' [[[name ts] v] mul] _.
  by apply addMetricValueRate_appends.
Qed.

(** *** The task of a node *)

Section node_task_appends.
Variable node : Node.
Hypothesis Q_node : Q TypeNode (Node_ID node) uuid_Nil uuid_Nil uuid_Nil.
Hypothesis Q_pod : forall namespace pod a s,
  FindService (scanner env) namespace pod = Some (a, s) ->
  Q TypePod (Node_ID node) a s uuid_Nil.
Hypothesis Q_container : forall namespace pod name a s c,
  FindContainer (scanner env) namespace pod name = Some (a, s, c) ->
  Q TypePodContainer (Node_ID node) a s (Container_ID c).

(** A loop over a pair of the state and the throttle table. *)
Lemma fold_left_pair_appends {A} (f : State * throttleTable -> A -> State * throttleTable)
    (l : list A) : forall acc,
  (forall acc x, throttle_ok Q node acc.2 ->
     appends Q acc.1 (f acc x).1 /\ throttle_ok Q node (f acc x).2) ->
  throttle_ok Q node acc.2 ->
  appends Q acc.1 (fold_left f l acc).1 /\ throttle_ok Q node (fold_left f l acc).2.
Proof.
  induction l as [|x l IH]; intros acc Hf Hok; simpl.
  - split; [apply appends_refl|done].
  - destruct (Hf acc x Hok) as [Happ Hok'].
    destruct (IH (f acc x) Hf Hok') as [Happ' Hok''].
    split; [by eapply appends_trans|done].
Qed.

Lemma scrape_container_appends pod acc container :
  throttle_ok Q node acc.2 ->
  appends Q acc.1 (scrape_container env node pod acc container).1
  /\ throttle_ok Q node (scrape_container env node pod acc container).2.
Proof.
  destruct acc as [st throttleMetrics]. intros Hok. unfold scrape_container.
  destruct (FindContainer _ _ _ _) as [[[a s] c]|] eqn:Hfind; cbv zeta; cbn [fst snd].
  - pose proof (Q_container _ _ _ _ _ _ Hfind) as HQ. split.
    + eapply appends_trans; [by apply add_values_appends|].
      by apply addMetricValueRate_appends.
    + intros id stores name sm Hid Hname.
      apply lookup_insert_Some in Hid as [[_ <-]|[_ Hid]]; [|by eapply Hok].
      repeat (apply lookup_insert_Some in Hname as [[_ <-]|[_ Hname]]; [exact HQ|]).
      by rewrite lookup_empty in Hname.
  - split; [apply appends_refl|done].
Qed.

Lemma scrape_pod_appends acc pod :
  throttle_ok Q node acc.2 ->
  appends Q acc.1 (scrape_pod env node acc pod).1
  /\ throttle_ok Q node (scrape_pod env node acc pod).2.
Proof.
  destruct acc as [st throttleMetrics]. intros Hok. unfold scrape_pod.
  destruct (FindService _ _ _) as [[a s]|] eqn:Hfind; cbv zeta; cbn [fst snd].
  - pose proof (Q_pod _ _ _ _ Hfind) as HQ.
    match goal with
    | |- context [fold_left ?f ?l (?st', throttleMetrics)] =>
        destruct (fold_left_pair_appends f l (st', throttleMetrics)) as [Happ Hok'];
          [intros; by apply scrape_container_appends|done|]
    end.
    split; [|done]. cbn [fst snd] in Happ.
    eapply appends_trans; [|exact Happ].
    eapply appends_trans; [by apply add_values_appends|by apply add_rates_appends].
  - split; [apply appends_refl|done].
Qed.

Lemma scrape_node_block_appends summary st :
  appends Q st (scrape_node_block env node summary st).
Proof.
  unfold scrape_node_block.
  eapply appends_trans; [by apply add_values_appends|by apply add_rates_appends].
Qed.

Lemma store_sample_ok name throttleMetrics val :
  throttle_ok Q node throttleMetrics ->
  throttle_ok Q node (store_sample env name throttleMetrics val).
Proof.
  intros Hok. unfold store_sample.
  destruct (sample_ok val); [|done].
  destruct (FindContainerByPodUIDContainerName _ _ _) as [[[_a _s] containerID]|]; [|done].
  destruct (throttleMetrics !! containerID) as [stores|] eqn:Hstores; [|done].
  destruct (stores !! name) as [sm|] eqn:Hsm; [|done].
  intros id stores' name' sm' Hid Hname.
  apply lookup_insert_Some in Hid as [[_ <-]|[_ Hid]]; [|by eapply Hok].
  apply lookup_insert_Some in Hname as [[_ <-]|[_ Hname]]; simpl.
  - by apply (Hok containerID stores name sm).
  - by apply (Hok containerID stores name' sm').
Qed.

Lemma store_samples_ok cadvisor throttleMetrics :
  throttle_ok Q node throttleMetrics ->
  throttle_ok Q node (store_samples env cadvisor throttleMetrics).
Proof.
  unfold store_samples. generalize throttle_refs. intros refs. revert throttleMetrics.
  induction refs as [|[name ref] refs IH]; intros t Hok; simpl; [done|].
  apply IH. generalize (default [] (cadvisor !! ref)). intros samples. revert t Hok.
  induction samples as [|val samples IHs]; intros t Hok; simpl; [done|].
  by apply IHs, store_sample_ok.
Qed.

Lemma emit_throttle_appends summary now throttleMetrics st :
  throttle_ok Q node throttleMetrics ->
  appends Q st (emit_throttle env node summary now throttleMetrics st).
Proof.
  intros Hok. unfold emit_throttle. apply fold_left_appends.
  intros st1 [id stores] Hid%elem_of_map_to_list.
  apply fold_left_appends. intros st2 [name sm] Hname%elem_of_map_to_list.
  pose proof (Hok id stores name sm Hid Hname) as HQ. unfold emit_stored.
  eapply appends_trans; [by apply addMetricValue_appends|].
  by apply addMetricValueRate_appends.
Qed.

(** Fetching a document leaves the batch alone. *)
Lemma fetch_loop_metrics path empty errmsg fuel : forall try st bytes,
  metrics_ (withBackoff_loop fuel (timeouts_backoff env)
              (fetch env node path empty errmsg) try (st, bytes)).2.1
    = metrics_ st.
Proof.
  induction fuel as [|fuel IH]; intros try st bytes; simpl; [done|].
  unfold call_GetBytes. destruct (GetBytes env node path _) as [bytes'|err]; simpl; [done|].
  destruct (strings_Contains _ _); simpl; [done|].
  destruct (decide (try + 1 > _)); simpl; [done|].
  unfold time_Sleep at 1, prod_Sleeper. simpl. by rewrite IH.
Qed.

Lemma fetch_metrics path empty errmsg st :
  metrics_ (withBackoff (timeouts_backoff env)
              (fetch env node path empty errmsg) (st, "")).2.1
    = metrics_ st.
Proof.
  unfold withBackoff.
  pose proof (fetch_loop_metrics path empty errmsg
                (withBackoff_fuel (timeouts_backoff env)) 0 st "") as Hloop.
  by destruct (withBackoff_loop _ _ _ _ _) as [[r|] [st' bytes]].
Qed.

Lemma process_cadvisor_appends summary throttleMetrics response st :
  throttle_ok Q node throttleMetrics ->
  appends Q st (process_cadvisor env node summary throttleMetrics response st).2.
Proof.
  intros Hok. unfold process_cadvisor.
  destruct (decodeCAdvisorResponse env response); simpl; [|apply appends_refl].
  by apply emit_throttle_appends, store_samples_ok.
Qed.

Lemma scrape_cadvisor_appends summary throttleMetrics st :
  throttle_ok Q node throttleMetrics ->
  appends Q st (scrape_cadvisor env node summary throttleMetrics st).2.
Proof.
  intros Hok. unfold scrape_cadvisor, fetch_cadvisor.
  pose proof (fetch_metrics "metrics/cadvisor" ""
                "{kubelet} unable to get cadvisor from node " st) as Hfetch.
  destruct (withBackoff _ _ _) as [[err|] [st' response]]; simpl in *.
  - by apply appends_same.
  - eapply appends_trans; [by apply appends_same|].
    by apply process_cadvisor_appends.
Qed.

Lemma process_summary_appends summaryBytes st :
  appends Q st (process_summary env node summaryBytes st).2.
Proof.
  unfold process_summary.
  set (st1 := if optInAnalysisData env then _ else st).
  assert (appends Q st st1) as Hraw.
  { apply appends_same. subst st1. destruct (optInAnalysisData env); [|done].
    by destruct (json_Unmarshal_interface env summaryBytes) as [[]|]. }
  eapply appends_trans; [exact Hraw|].
  destruct (json_Unmarshal_summary env summaryBytes) as [summary|err]; simpl;
    [|apply appends_refl].
  destruct (fold_left_pair_appends (scrape_pod env node) (summary_Pods summary)
              (scrape_node_block env node summary st1, ∅)) as [Happ Hok].
  { intros. by apply scrape_pod_appends. }
  { intros id stores name sm Hid. cbn [snd] in Hid. by rewrite lookup_empty in Hid. }
  destruct (fold_left _ _ _) as [st2 throttleMetrics]. simpl in *.
  eapply appends_trans; [apply scrape_node_block_appends|].
  eapply appends_trans; [exact Happ|]. by apply scrape_cadvisor_appends.
Qed.

(** Whether it fails or not, a task only appends to the batch. *)
Lemma node_task_appends st : appends Q st (node_task env node st).2.
Proof.
  unfold node_task, fetch_summary.
  pose proof (fetch_metrics "stats/summary" "{}"
                "{kubelet} unable to get summary from node " st) as Hfetch.
  destruct (withBackoff _ _ _) as [[err|] [st' summaryBytes]]; simpl in *.
  - by apply appends_same.
  - eapply appends_trans; [by apply appends_same|].
    apply process_summary_appends.
Qed.

End node_task_appends.

(** *** The whole cycle *)

Section cycle_appends.
Hypothesis Q_cluster : Q TypeCluster uuid_Nil uuid_Nil uuid_Nil uuid_Nil.
Hypothesis Q_nodes : forall node, node ∈ GetNodes (scanner env) ->
  Q TypeNode (Node_ID node) uuid_Nil uuid_Nil uuid_Nil.
Hypothesis Q_pods : forall node namespace pod a s,
  node ∈ GetNodes (scanner env) ->
  FindService (scanner env) namespace pod = Some (a, s) ->
  Q TypePod (Node_ID node) a s uuid_Nil.
Hypothesis Q_containers : forall node namespace pod name a s c,
  node ∈ GetNodes (scanner env) ->
  FindContainer (scanner env) namespace pod name = Some (a, s, c) ->
  Q TypePodContainer (Node_ID node) a s (Container_ID c).
Hypothesis Q_specs : forall app service container,
  app ∈ GetApplications (scanner env) -> service ∈ Services app ->
  container ∈ Service_Containers service ->
  Q TypePodContainer uuid_Nil (Application_ID app) (Service_ID service)
    (Container_ID container).

Lemma add_cluster_counts_appends st : appends Q st (add_cluster_counts env st).
Proof.
  unfold add_cluster_counts.
  eapply appends_trans; [by apply addMetricValue_appends|].
  apply fold_left_appends. intros st' [instanceGroup nodesCount] _.
  by apply addMetricValueWithTags_appends.
Qed.

Lemma add_node_capacities_appends st : appends Q st (add_node_capacities env st).
Proof.
  unfold add_node_capacities. apply fold_left_appends. intros st' node Hnode.
  by apply add_values_appends, Q_nodes.
Qed.

Lemma add_spec_values_appends st : appends Q st (add_spec_values env st).
Proof.
  unfold add_spec_values. apply fold_left_appends. intros st1 app Happ.
  apply fold_left_appends. intros st2 service Hservice.
  apply fold_left_appends. intros st3 container Hcontainer.
  unfold add_container_spec. apply fold_left_appends. intros st4 [name value] _.
  by apply addMetricValue_appends, Q_specs.
Qed.

Lemma run_tasks_appends nodes : forall st,
  (forall node, node ∈ nodes -> node ∈ GetNodes (scanner env)) ->
  appends Q st (run_tasks env nodes st).2.
Proof.
  induction nodes as [|node nodes IH]; intros st Hnodes; [apply appends_refl|].
  rewrite run_tasks_cons. cbn [snd].
  pose proof (Hnodes node (list_elem_of_here _ _)) as Hnode.
  eapply appends_trans.
  - apply (node_task_appends node (Q_nodes node Hnode)
             (fun ns pod a s => Q_pods node ns pod a s Hnode)
             (fun ns pod name a s c => Q_containers node ns pod name a s c Hnode)).
  - apply IH. intros node' Hin. apply Hnodes. by apply list_elem_of_further.
Qed.

End cycle_appends.

End batch_properties.


(** ** Properties of package metrics: the batch of a cycle *)

Section scrape_cycle_properties.
Import metrics.

Lemma appends_prefix Q st st' :
  appends Q st st' -> metrics_ st `prefix_of` metrics_ st'.
Proof. intros (suffix & -> & _). by apply prefix_app_r. Qed.

Lemma appends_any_tasks env nodes st :
  appends any_ids st (run_tasks env nodes st).2.
Proof.
  induction nodes as [|node nodes IH] in st |- *; [apply appends_refl|].
  rewrite run_tasks_cons. cbn [snd].
  eapply appends_trans; [|apply IH].
  by apply node_task_appends.
Qed.

(** C3. [GetMetrics] returns no error, whatever the tasks of the nodes
    return. The batch built from the snapshot (cluster counts, node
    capacities, per-container requests and limits) is kept in the result,
    and so is everything the task of each node accumulates, the task
    being run on the state left by the tasks before it, failed or not. *)
Theorem GetMetrics_partial_batch env previous :
  (GetMetrics env previous).1.2 = None
  /\ metrics_ (before_tasks env previous) `prefix_of` (GetMetrics env previous).1.1.1
  /\ forall done node rest,
       GetNodes (scanner env) = done ++ node :: rest ->
       metrics_ (node_task env node
                   (run_tasks env done (before_tasks env previous)).2).2
         `prefix_of` (GetMetrics env previous).1.1.1.
Proof.
  rewrite GetMetrics_returns. cbn [fst snd]. split; [done|]. split.
  - eapply appends_prefix, appends_any_tasks.
  - intros done node rest ->.
    rewrite run_tasks_app, run_tasks_cons. cbn [snd].
    eapply appends_prefix, appends_any_tasks.
Qed.

(** In the sample node-2 refuses every connection: its task returns an
    error, and the cycle still returns the 37 records of the snapshot and
    of node-1, without an error. *)
Example GetMetrics_partial_batch_sample :
  let st0 := before_tasks scrape_samples.env ∅ in
  let nodes := GetNodes (scanner scrape_samples.env) in
  (fun err => bool_decide (err = None)) <$> (run_tasks scrape_samples.env nodes st0).1
    = [true; false]
  /\ (GetMetrics scrape_samples.env ∅).1.2 = None
  /\ length (GetMetrics scrape_samples.env ∅).1.1.1 = 37%nat.
Proof. vm_compute. repeat split. Qed.

Lemma sample_scanner_ids_ok : scanner_ids_ok (scanner scrape_samples.env).
Proof.
  split; [|split; [|split]].
  - intros node H.
    apply elem_of_cons in H as [->|H]; [done|].
    apply elem_of_cons in H as [->|H]; [done|]. by apply elem_of_nil in H.
  - intros app service container Happ Hservice Hcontainer.
    apply list_elem_of_singleton in Happ as ->.
    apply list_elem_of_singleton in Hservice as ->.
    apply list_elem_of_singleton in Hcontainer as ->. done.
  - intros namespace pod a s H. simpl in H.
    case_decide; [|done]. by injection H as <- <-.
  - intros namespace pod name a s c H. simpl in H.
    case_decide; [|done]. by injection H as <- <- <-.
Qed.

(** C2 (as stated, fails). With a scanner that hands out no nil
    identifier, the batch holds a record of type pod_container whose
    node identifier is nil: the cpu/request of a container of the
    snapshot. *)
Lemma GetMetrics_container_record_without_node :
  scanner_ids_ok (scanner scrape_samples.env)
  /\ exists m,
       m ∈ (GetMetrics scrape_samples.env ∅).1.1.1
       /\ Name m = "cpu/request" /\ Type_ m = TypePodContainer
       /\ Node_ m = uuid_Nil /\ ~ scope_ok m.
Proof.
  split; [apply sample_scanner_ids_ok|].
  exists (mkMetrics "cpu/request" TypePodContainer uuid_Nil 10%N 20%N 30%N
                    scrape_samples.T0 100 "" None).
  split.
  - apply list_elem_of_lookup. exists 10%nat. vm_compute. reflexivity.
  - repeat split.
    intros [(H & _)|[(H & _)|[(H & _)|(_ & H & _)]]]; simpl in H;
      first [discriminate H | by apply H].
Qed.

Lemma collectGarbage_metrics env st : metrics_ (collectGarbage env st) = metrics_ st.
Proof. reflexivity. Qed.

(** C2 (amended). With a scanner that hands out no nil identifier, the
    batch of [GetMetrics] is made of three runs of records. The records
    emitted first (cluster counts, node capacities) and those emitted by
    the tasks of the nodes carry exactly the identifiers their type
    requires: none for Cluster, the node for Node, node, application and
    service for Pod, all four for PodContainer. The records emitted from
    the snapshot for the containers of each service (requests and
    limits) are of type PodContainer with application, service and
    container set and a nil node. *)
Theorem GetMetrics_identifier_scope env previous :
  scanner_ids_ok (scanner env) ->
  let counts :=
    metrics_ (add_node_capacities env (add_cluster_counts env (start_state env previous))) in
  exists specs scraped,
    metrics_ (before_tasks env previous) = counts ++ specs
    /\ (GetMetrics env previous).1.1.1 = counts ++ specs ++ scraped
    /\ Forall scope_ok counts
    /\ Forall snapshot_container_record specs
    /\ Forall scope_ok scraped.
Proof.
  intros (Hnodes & Happs & Hservice & Hcontainer) counts.
  assert (forall node, node ∈ GetNodes (scanner env) ->
            scope_ids TypeNode (Node_ID node) uuid_Nil uuid_Nil uuid_Nil) as Q_nodes.
  { intros node Hnode. right. left. repeat split. by apply Hnodes. }
  assert (Forall scope_ok counts) as Hcounts.
  { assert (appends scope_ids (start_state env previous)
              (add_node_capacities env (add_cluster_counts env (start_state env previous))))
      as (suffix & Heq & Hsuffix).
    { eapply appends_trans.
      - apply add_cluster_counts_appends. left. by repeat split.
      - by apply add_node_capacities_appends. }
    subst counts. rewrite Heq. unfold start_state.
    by rewrite collectGarbage_metrics. }
  destruct (add_spec_values_appends snapshot_container_ids env) with
    (st := add_node_capacities env (add_cluster_counts env (start_state env previous)))
    as (specs & Hspecs_eq & Hspecs).
  { intros app service container Happ Hsvc Hctr.
    destruct (Happs app service container Happ Hsvc Hctr) as (Ha & Hs & Hc).
    by repeat split. }
  destruct (run_tasks_appends scope_ids env) with
    (nodes := GetNodes (scanner env)) (st := before_tasks env previous)
    as (scraped & Hscraped_eq & Hscraped).
  { exact Q_nodes. }
  { intros node namespace pod a s Hnode Hfind.
    destruct (Hservice _ _ _ _ Hfind). right. right. left.
    repeat split; try done. by apply Hnodes. }
  { intros node namespace pod name a s c Hnode Hfind.
    destruct (Hcontainer _ _ _ _ _ _ Hfind) as (Ha & Hs & Hc). right. right. right.
    repeat split; try done. by apply Hnodes. }
  { done. }
  exists specs, scraped. rewrite GetMetrics_returns. cbn [fst].
  assert (metrics_ (before_tasks env previous) = counts ++ specs) as Hbefore
    by exact Hspecs_eq.
  repeat split; try done.
  by rewrite Hscraped_eq, Hbefore, <- app_assoc.
Qed.

Lemma GetMetrics_identifier_scope_witness :
  exists specs scraped,
    metrics_ (before_tasks scrape_samples.env ∅)
      = metrics_ (add_node_capacities scrape_samples.env
                    (add_cluster_counts scrape_samples.env
                       (start_state scrape_samples.env ∅))) ++ specs
    /\ (GetMetrics scrape_samples.env ∅).1.1.1
       = metrics_ (add_node_capacities scrape_samples.env
                     (add_cluster_counts scrape_samples.env
                        (start_state scrape_samples.env ∅))) ++ specs ++ scraped
    /\ Forall scope_ok
         (metrics_ (add_node_capacities scrape_samples.env
                      (add_cluster_counts scrape_samples.env
                         (start_state scrape_samples.env ∅))))
    /\ Forall snapshot_container_record specs
    /\ Forall scope_ok scraped.
Proof.
  apply (GetMetrics_identifier_scope scrape_samples.env ∅).
  apply sample_scanner_ids_ok.
Defined.

End scrape_cycle_properties.
